(** * Per-monitor workspace synchronisation of jb-shell

    A shallow embedding of [MonitorWorkspaces] (src/widgets/workspaces.py):
    the event handlers, the initial sync, the membership query and the
    user-driven dispatch commands, together with the Python primitives they
    rely on (subscripting, [dict.get], truthiness, [int], [str]) and the
    Workspace Registry they drive. *)

From Stdlib Require Import ZArith String Ascii List Bool Lia.
From Stdlib Require Import DecimalString.
From Stdlib Require Import Sorted.
Import ListNotations.

#[local] Set Warnings "-register-all".
Local Open Scope string_scope.
Local Open Scope list_scope.
Local Open Scope Z_scope.

(** ** JSON documents as [json.loads] returns them

    Numbers are restricted to integers (the compositor's ids); an object is
    the association list of the resulting [dict], in insertion order and with
    distinct keys. *)

Inductive json : Type :=
| JNull : json
| JBool : bool -> json
| JNum : Z -> json
| JStr : string -> json
| JArr : list json -> json
| JObj : list (string * json) -> json.

(** ** Exceptions, outcomes and the state the handlers thread *)

Inductive exn : Type :=
| KeyError
| TypeError
| ValueError
| AttributeError
| JSONDecodeError
| ConnectionError.

Inductive outcome (A : Type) : Type :=
| Returned : A -> outcome A
| Raised : exn -> outcome A.

Arguments Returned {A} _.
Arguments Raised {A} _.

(** ** Workspace Registry *)

Module Registry.

(** Modelled from the spec: the Registry is the base class [Workspaces] of
    the widget toolkit, whose code is not part of this repository. A
    workspace carries its id and the two flags the transitions touch. *)
Record workspace : Type := mk_workspace
  { ws_id : Z; ws_active : bool; ws_urgent : bool }.

(** Modelled from the spec: the Registry's held workspaces, in creation
    order (the toolkit's [_buttons] dictionary). *)
Definition t : Type := list workspace.

(** Modelled from the spec: the toolkit's initial state, no workspace
    held. *)
Definition empty : t := [].

(** Modelled from the spec: whether the Registry currently holds [id]
    (the toolkit's [_buttons.get(id)] being a button). *)
Definition holds (r : t) (id : Z) : bool :=
  existsb (fun w => ws_id w =? id) r.

(** Modelled from the spec: [create(id)] adds [id] with [active=false],
    [urgent=false]; no-op if already present. *)
Definition create (id : Z) (r : t) : t :=
  if holds r id then r else r ++ [mk_workspace id false false].

(** Modelled from the spec: [destroy(id)] removes [id] if present; no-op
    otherwise. *)
Definition destroy (id : Z) (r : t) : t :=
  filter (fun w => negb (ws_id w =? id)) r.

(** Modelled from the spec: [activate(id)], if [id] is present, sets its
    [active=true] and clears [active] on any previously active workspace;
    if [id] is absent it is a silent no-op. *)
Definition activate (id : Z) (r : t) : t :=
  if holds r id
  then map (fun w => mk_workspace (ws_id w) (ws_id w =? id) (ws_urgent w)) r
  else r.

(** Modelled from the spec: [mark_urgent(id)], if present, flags
    [urgent=true]. *)
Definition mark_urgent (id : Z) (r : t) : t :=
  map (fun w => if ws_id w =? id
                then mk_workspace (ws_id w) (ws_active w) true
                else w) r.

(** Modelled from the spec: [iterate()] produces the current ordered
    sequence of held workspace ids. *)
Definition iterate (r : t) : list Z := map ws_id r.

(** The workspaces of [r] whose [active] flag is set. *)
Definition actives (r : t) : list workspace := filter ws_active r.

(** At most one workspace is active. *)
Definition at_most_one_active (r : t) : Prop :=
  (length (actives r) <= 1)%nat.

(** The flags of [id], when held. *)
Definition find (r : t) (id : Z) : option workspace :=
  List.find (fun w => ws_id w =? id) r.

(** The invariant the transitions maintain: ids are distinct and at most one
    workspace is active. *)
Definition consistent (r : t) : Prop :=
  NoDup (iterate r) /\ at_most_one_active r.

End Registry.

(** What a handler does to the outside: a command sent over the IPC
    connection, or a transition requested from the Registry. *)
Inductive effect : Type :=
| Sent : string -> effect
| Created : Z -> effect
| Destroyed : Z -> effect
| Activated : Z -> effect
| MarkedUrgent : Z -> effect.

Record World : Type := mk_world
  { buttons : Registry.t;
    trace : list effect }.

(** A computation may mutate the world and then return or raise; what it did
    before raising stays done. *)
Definition M (A : Type) : Type := World -> outcome A * World.

Definition ret {A} (a : A) : M A := fun w => (Returned a, w).

Definition raise {A} (e : exn) : M A := fun w => (Raised e, w).

Definition bind {A B} (c : M A) (k : A -> M B) : M B :=
  fun w =>
    match c w with
    | (Returned a, w') => k a w'
    | (Raised e, w') => (Raised e, w')
    end.

(** [try: c  except Exception: h] *)
Definition try_except {A} (c : M A) (h : M A) : M A :=
  fun w =>
    match c w with
    | (Returned a, w') => (Returned a, w')
    | (Raised _, w') => h w'
    end.

Declare Scope py_scope.
Delimit Scope py_scope with py.
Notation "x <- c ;; k" := (bind c (fun x => k))
  (at level 61, c at next level, right associativity) : py_scope.
Notation "c ;;; k" := (bind c (fun _ => k))
  (at level 61, right associativity) : py_scope.
Local Open Scope py_scope.

Definition emit (e : effect) : M unit :=
  fun w => (Returned tt, mk_world (buttons w) (trace w ++ [e])).

Definition update_buttons (f : Registry.t -> Registry.t) : M unit :=
  fun w => (Returned tt, mk_world (f (buttons w)) (trace w)).

(** ** Python primitives *)

(** What [int] makes of a [str] that has characters outside ASCII: there the
    interpreter goes by its Unicode tables of decimal digits and whitespace,
    which are not part of the program and are taken as given. A [str] is
    given by the bytes of its UTF-8 encoding; [None] is [ValueError]. *)
Class Interpreter : Type := { unicode_int : string -> option Z }.

Module Py.

Fixpoint assoc (k : string) (kvs : list (string * json)) : option json :=
  match kvs with
  | [] => None
  | (k', v) :: rest => if String.eqb k' k then Some v else assoc k rest
  end.

(** [v[key]] for a string [key]. *)
Definition subscript (v : json) (key : string) : M json :=
  match v with
  | JObj kvs =>
      match assoc key kvs with
      | Some x => ret x
      | None => raise KeyError
      end
  | _ => raise TypeError
  end.

(** [v.get(key, default)] *)
Definition get (v : json) (key : string) (default : json) : M json :=
  match v with
  | JObj kvs =>
      match assoc key kvs with
      | Some x => ret x
      | None => ret default
      end
  | _ => raise AttributeError
  end.

Fixpoint chars (s : string) : list json :=
  match s with
  | EmptyString => []
  | String c rest => JStr (String c EmptyString) :: chars rest
  end.

(** [for x in v]: the sequence of items iterated over. *)
Definition iter (v : json) : M (list json) :=
  match v with
  | JArr l => ret l
  | JObj kvs => ret (map (fun kv => JStr (fst kv)) kvs)
  | JStr s => ret (chars s)
  | _ => raise TypeError
  end.

(** [bool(v)] *)
Definition truthy (v : json) : bool :=
  match v with
  | JNull => false
  | JBool b => b
  | JNum n => negb (n =? 0)
  | JStr s => negb (String.eqb s "")
  | JArr l => match l with [] => false | _ => true end
  | JObj kvs => match kvs with [] => false | _ => true end
  end.

(** [v == n] for an [int] [n] ([True == 1] and [False == 0] in Python). *)
Definition eq_int (v : json) (n : Z) : bool :=
  match v with
  | JNum k => k =? n
  | JBool b => Z.b2z b =? n
  | _ => false
  end.

(** [v == s] for a [str] [s]. *)
Definition eq_str (v : json) (s : string) : bool :=
  match v with
  | JStr s' => String.eqb s' s
  | _ => false
  end.

(** [k1 == k2] between hashable values, as a [dict] compares its keys. *)
Definition key_eq (k1 k2 : json) : bool :=
  match k1, k2 with
  | JNull, JNull => true
  | JStr a, JStr b => String.eqb a b
  | JNum a, k => eq_int k a
  | JBool a, k => eq_int k (Z.b2z a)
  | _, _ => false
  end.

Definition hashable (v : json) : bool :=
  match v with
  | JArr _ | JObj _ => false
  | _ => true
  end.

(** [d[k] = v] on a [dict] with arbitrary hashable keys: an existing key
    keeps its place and takes the new value. *)
Fixpoint dict_set (d : list (json * json)) (k v : json) : list (json * json) :=
  match d with
  | [] => [(k, v)]
  | (k', v') :: rest =>
      if key_eq k' k then (k', v) :: rest else (k', v') :: dict_set rest k v
  end.

(** [d.get(k, default)] on such a [dict]. *)
Fixpoint dict_get (d : list (json * json)) (k default : json) : json :=
  match d with
  | [] => default
  | (k', v) :: rest => if key_eq k' k then v else dict_get rest k default
  end.

(** The whitespace [int] skips around an ASCII literal: tab, line feed,
    vertical tab, form feed, carriage return and space. *)
Definition is_space (c : ascii) : bool :=
  let n := nat_of_ascii c in
  (((9 <=? n) && (n <=? 13)) || (n =? 32))%nat.

(** Whether a [str], given by the bytes of its UTF-8 encoding, has ASCII
    characters only. *)
Fixpoint is_ascii (s : string) : bool :=
  match s with
  | EmptyString => true
  | String c rest => (nat_of_ascii c <? 128)%nat && is_ascii rest
  end.

Definition digit_of (c : ascii) : option Z :=
  let n := nat_of_ascii c in
  if ((48 <=? n) && (n <=? 57))%nat then Some (Z.of_nat n - 48) else None.

Fixpoint lstrip (s : string) : string :=
  match s with
  | String c rest => if is_space c then lstrip rest else s
  | EmptyString => s
  end.

Fixpoint all_space (s : string) : bool :=
  match s with
  | EmptyString => true
  | String c rest => is_space c && all_space rest
  end.

(** The interpreter's limit on the number of digits [int] converts. *)
Definition max_str_digits : nat := 4300.

(** Digits of a decimal literal, single underscores allowed between
    digits, trailing whitespace allowed; [after_digit] tells whether the
    previous character was a digit. *)
Fixpoint digits (after_digit : bool) (acc : Z) (count : nat) (s : string)
  : option (Z * nat) :=
  match s with
  | EmptyString => if after_digit then Some (acc, count) else None
  | String c rest =>
      match digit_of c with
      | Some d => digits true (10 * acc + d) (S count) rest
      | None =>
          if after_digit then
            if Ascii.eqb c "_" then digits false acc count rest
            else if all_space s then Some (acc, count) else None
          else None
      end
  end.

(** [int(s)] for a [str] [s] of ASCII characters: [None] is [ValueError]. *)
Definition ascii_int (s : string) : option Z :=
  let body := lstrip s in
  let '(neg, rest) :=
    match body with
    | String c r =>
        if Ascii.eqb c "-" then (true, r)
        else if Ascii.eqb c "+" then (false, r)
        else (false, body)
    | EmptyString => (false, body)
    end in
  match digits false 0 0%nat rest with
  | Some (n, count) =>
      if (count <=? max_str_digits)%nat
      then Some (if neg then - n else n)
      else None
  | None => None
  end.

(** [int(s)] for any [str] [s]: [None] is [ValueError]. *)
Definition int_of_string {py : Interpreter} (s : string) : option Z :=
  if is_ascii s then ascii_int s else unicode_int s.

(** [int(s)] as a computation. *)
Definition int_str {py : Interpreter} (s : string) : M Z :=
  match int_of_string s with
  | Some n => ret n
  | None => raise ValueError
  end.

(** [int(v)] *)
Definition int {py : Interpreter} (v : json) : M Z :=
  match v with
  | JNum n => ret n
  | JBool b => ret (Z.b2z b)
  | JStr s => int_str s
  | _ => raise TypeError
  end.

(** [str(n)], as an f-string formats an [int]. *)
Definition str_int (n : Z) : string :=
  NilZero.string_of_int (Z.to_int n).

End Py.

(** ** The IPC connection

    What [send_command(cmd).reply.decode()] holds when the handler runs:
    a text [json.loads] parses to a document, or a text it rejects; no reply
    at all is a transport failure. *)

Inductive reply : Type :=
| Document : json -> reply
| Garbled : reply.

Definition Connection : Type := string -> option reply.

(** [connection.send_command(cmd)] *)
Definition send_command (connection : Connection) (cmd : string) : M reply :=
  emit (Sent cmd) ;;;
  match connection cmd with
  | Some r => ret r
  | None => raise ConnectionError
  end.

(** [json.loads(r.reply.decode())] *)
Definition json_loads (r : reply) : M json :=
  match r with
  | Document j => ret j
  | Garbled => raise JSONDecodeError
  end.

(** ** The transitions inherited from the Registry, as the handlers call
    them *)

Definition workspace_created (id : Z) : M unit :=
  emit (Created id) ;;; update_buttons (Registry.create id).

Definition workspace_destroyed (id : Z) : M unit :=
  emit (Destroyed id) ;;; update_buttons (Registry.destroy id).

Definition workspace_activated (id : Z) : M unit :=
  emit (Activated id) ;;; update_buttons (Registry.activate id).

Definition urgent (id : Z) : M unit :=
  emit (MarkedUrgent id) ;;; update_buttons (Registry.mark_urgent id).

(** [self._buttons.get(id)], as a condition. *)
Definition buttons_get (id : Z) : M bool :=
  fun w => (Returned (Registry.holds (buttons w) id), w).

(** The Registry is keyed by integer ids: a document value used as an id is
    an [int] ([bool] included, as Python has it); any other value is outside
    the Registry's contract and is rejected. *)
Definition registry_key (v : json) : M Z :=
  match v with
  | JNum n => ret n
  | JBool b => ret (Z.b2z b)
  | _ => raise TypeError
  end.

(** ** MonitorWorkspaces *)

Record HyprlandEvent : Type := mk_event { data : list string }.

Record MonitorWorkspaces : Type := mk_self
  { _monitor_name : string;
    _empty_scroll : bool }.

Section Synchronizer.

Context {py : Interpreter}.
Variable self : MonitorWorkspaces.
Variable connection : Connection.

(** The loop of [_get_workspace_monitor]: the first entry whose id equals
    [ws_id] decides. *)
Fixpoint scan_workspaces (ws_id : Z) (workspaces : list json)
  : M (option json) :=
  match workspaces with
  | [] => ret None
  | ws :: rest =>
      i <- Py.subscript ws "id" ;;
      if Py.eq_int i ws_id
      then m <- Py.get ws "monitor" (JStr "") ;; ret (Some m)
      else scan_workspaces ws_id rest
  end.

Definition _get_workspace_monitor (ws_id : Z) : M (option json) :=
  try_except
    (r <- send_command connection "j/workspaces" ;;
     workspaces <- json_loads r ;;
     items <- Py.iter workspaces ;;
     scan_workspaces ws_id items)
    (ret None).

Definition _is_mine (ws_id : Z) : M bool :=
  m <- _get_workspace_monitor ws_id ;;
  ret match m with
      | Some v => Py.eq_str v (_monitor_name self)
      | None => false
      end.

Fixpoint on_ready_loop (active_workspace : json) (workspaces : list json)
  : M unit :=
  match workspaces with
  | [] => ret tt
  | ws :: rest =>
      m <- Py.subscript ws "monitor" ;;
      (if Py.eq_str m (_monitor_name self)
       then
         i <- Py.subscript ws "id" ;;
         id <- registry_key i ;;
         workspace_created id ;;;
         if Py.eq_int active_workspace id
         then workspace_activated id
         else ret tt
       else ret tt) ;;;
      on_ready_loop active_workspace rest
  end.

Definition on_ready : M unit :=
  r <- send_command connection "j/workspaces" ;;
  workspaces <- json_loads r ;;
  r' <- send_command connection "j/activeworkspace" ;;
  a <- json_loads r' ;;
  active_workspace <- Py.subscript a "id" ;;
  items <- Py.iter workspaces ;;
  on_ready_loop active_workspace items.

Definition on_monitor (event : HyprlandEvent) : M unit :=
  if negb (length (data event) =? 2)%nat then ret tt else
  let mon_name := nth 0 (data event) "" in
  ws_id <- Py.int_str (nth 1 (data event) "") ;;
  if String.eqb mon_name (_monitor_name self)
  then workspace_activated ws_id
  else ret tt.

Definition on_workspace (event : HyprlandEvent) : M unit :=
  if negb (length (data event) =? 2)%nat then ret tt else
  ws_id <- Py.int_str (nth 0 (data event) "") ;;
  mine <- _is_mine ws_id ;;
  if mine then workspace_activated ws_id else ret tt.

Definition on_create_workspace (event : HyprlandEvent) : M unit :=
  if negb (length (data event) =? 2)%nat then ret tt else
  ws_id <- Py.int_str (nth 0 (data event) "") ;;
  mine <- _is_mine ws_id ;;
  if mine then workspace_created ws_id else ret tt.

Definition on_destroy_workspace (event : HyprlandEvent) : M unit :=
  if negb (length (data event) =? 2)%nat then ret tt else
  ws_id <- Py.int_str (nth 0 (data event) "") ;;
  held <- buttons_get ws_id ;;
  if held then workspace_destroyed ws_id else ret tt.

Definition on_move_workspace (event : HyprlandEvent) : M unit :=
  if negb (length (data event) =? 2)%nat then ret tt else
  ws_id <- Py.int_str (nth 0 (data event) "") ;;
  let target_mon := nth 1 (data event) "" in
  if String.eqb target_mon (_monitor_name self)
  then workspace_created ws_id
  else
    held <- buttons_get ws_id ;;
    if held then workspace_destroyed ws_id else ret tt.

(** The dictionary comprehension of [on_urgent], keyed by each client's
    address. *)
Fixpoint clients_by_address (clients : list json) (acc : list (json * json))
  : M (list (json * json)) :=
  match clients with
  | [] => ret acc
  | client :: rest =>
      k <- Py.subscript client "address" ;;
      if Py.hashable k
      then clients_by_address rest (Py.dict_set acc k client)
      else raise TypeError
  end.

Definition on_urgent (event : HyprlandEvent) : M unit :=
  if negb (length (data event) =? 1)%nat then ret tt else
  r <- send_command connection "j/clients" ;;
  clients <- json_loads r ;;
  items <- Py.iter clients ;;
  clients_map <- clients_by_address items [] ;;
  let urgent_client :=
    Py.dict_get clients_map
      (JStr ("0x" ++ nth 0 (data event) "")%string) (JObj []) in
  raw_workspace <- Py.get urgent_client "workspace" JNull ;;
  if negb (Py.truthy raw_workspace) then ret tt else
  i <- Py.subscript raw_workspace "id" ;;
  ws_id <- Py.int i ;;
  held <- buttons_get ws_id ;;
  if held then urgent ws_id else ret tt.

Definition relative_prefix : string :=
  if negb (_empty_scroll self) then "e" else "".

Definition do_action_next : M reply :=
  send_command connection
    ("batch/dispatch workspace " ++ relative_prefix ++ "+1")%string.

Definition do_action_previous : M reply :=
  send_command connection
    ("batch/dispatch workspace " ++ relative_prefix ++ "-1")%string.

(** [button] is given by its id. *)
Definition do_button_clicked (button_id : Z) : M reply :=
  send_command connection
    ("batch/dispatch workspace " ++ Py.str_int button_id)%string.

(** The events [__init__] subscribes to. *)
Inductive signal : Type :=
| workspacev2
| focusedmonv2
| createworkspacev2
| destroyworkspacev2
| moveworkspacev2
| urgent_signal.

(** The table [__init__] passes to [bulk_connect]. *)
Definition handler (s : signal) : HyprlandEvent -> M unit :=
  match s with
  | workspacev2 => on_workspace
  | focusedmonv2 => on_monitor
  | createworkspacev2 => on_create_workspace
  | destroyworkspacev2 => on_destroy_workspace
  | moveworkspacev2 => on_move_workspace
  | urgent_signal => on_urgent
  end.

End Synchronizer.

(** The number of fields each event carries, as the event table documents
    it. *)
Definition arity (s : signal) : nat :=
  match s with
  | urgent_signal => 1
  | _ => 2
  end.

(** The world of a freshly constructed widget: no button, nothing sent. *)
Definition initial_world : World := mk_world Registry.empty [].

(** The commands a trace sent over the connection. *)
Definition sent (t : list effect) : list string :=
  flat_map (fun e => match e with Sent c => [c] | _ => [] end) t.

(** One delivery of the event loop: the connection as it answers at that
    moment, the signal and its event. An exception raised by a handler ends
    that handler only; the mutations it made stay. *)
Definition delivery : Type := (Connection * signal * HyprlandEvent)%type.

Definition deliver {py : Interpreter} (self : MonitorWorkspaces) (d : delivery)
    (w : World)
  : World :=
  let '(connection, s, event) := d in
  snd (handler self connection s event w).

(** The widget's life: the initial sync, then the deliveries in order. *)
Definition run {py : Interpreter} (self : MonitorWorkspaces)
    (at_start : Connection)
    (ds : list delivery) : World :=
  fold_left (fun w d => deliver self d w) ds
    (snd (on_ready self at_start initial_world)).

(** ** WorkspacesWidget *)

(** [WorkspacesWidget(monitor_name)]: the [MonitorWorkspaces] it builds,
    bound to [monitor_name or ""], scroll flags left at their defaults. *)
Definition WorkspacesWidget (monitor_name : option string)
  : MonitorWorkspaces :=
  mk_self
    match monitor_name with
    | Some s => if String.eqb s "" then "" else s
    | None => ""
    end
    false.

(** ** The bars (src/widgets/bar.py) *)

(** The geometry of a GDK monitor, as far as [create_bars] reads it. *)
Record Rectangle : Type := mk_geo { geo_x : Z; geo_y : Z }.

(** The display: the geometries of its monitors, by GDK index. *)
Definition Display : Type := list Rectangle.

(** [d[k] = v] on the dictionary [gdk_to_hypr]. *)
Fixpoint setitem (d : list (nat * json)) (k : nat) (v : json)
  : list (nat * json) :=
  match d with
  | [] => [(k, v)]
  | (k', v') :: rest =>
      if (k' =? k)%nat then (k', v) :: rest else (k', v') :: setitem rest k v
  end.

(** The inner loop of the position matching: the first Hyprland monitor at
    the position of GDK monitor [i] gives it its name, and the loop breaks. *)
Fixpoint match_position (i : nat) (geo : Rectangle) (hypr_monitors : list json)
    (gdk_to_hypr : list (nat * json)) : M (list (nat * json)) :=
  match hypr_monitors with
  | [] => ret gdk_to_hypr
  | hm :: rest =>
      hx <- Py.subscript hm "x" ;;
      if Py.eq_int hx (geo_x geo)
      then
        hy <- Py.subscript hm "y" ;;
        if Py.eq_int hy (geo_y geo)
        then name <- Py.subscript hm "name" ;; ret (setitem gdk_to_hypr i name)
        else match_position i geo rest gdk_to_hypr
      else match_position i geo rest gdk_to_hypr
  end.

(** The outer loop, over the GDK monitors from index [i] on. *)
Fixpoint match_monitors (hypr_monitors : json) (i : nat) (display : Display)
    (gdk_to_hypr : list (nat * json)) : M (list (nat * json)) :=
  match display with
  | [] => ret gdk_to_hypr
  | geo :: rest =>
      hms <- Py.iter hypr_monitors ;;
      d <- match_position i geo hms gdk_to_hypr ;;
      match_monitors hypr_monitors (S i) rest d
  end.

(** The fallback loop over [enumerate(hypr_monitors)], from index [i] on. *)
Fixpoint assign_by_order (n_monitors : nat) (i : nat) (hypr_monitors : list json)
    (gdk_to_hypr : list (nat * json)) : M (list (nat * json)) :=
  match hypr_monitors with
  | [] => ret gdk_to_hypr
  | hm :: rest =>
      if (i <? n_monitors)%nat
      then
        name <- Py.subscript hm "name" ;;
        assign_by_order n_monitors (S i) rest (setitem gdk_to_hypr i name)
      else assign_by_order n_monitors (S i) rest gdk_to_hypr
  end.

(** The first part of [create_bars] (bar.py, lines 59 to 76): the query of
    the Hyprland monitors and the dictionary [gdk_to_hypr] built from it, by
    position and, when that leaves it empty, by order. No bar is constructed
    yet. *)
Definition gdk_to_hypr (display : Display) (conn : Connection)
  : M (list (nat * json)) :=
  r <- send_command conn "j/monitors" ;;
  hypr_monitors <- json_loads r ;;
  gdk_to_hypr <- match_monitors hypr_monitors 0 display [] ;;
  match gdk_to_hypr with
  | [] =>
      hms <- Py.iter hypr_monitors ;;
      assign_by_order (length display) 0 hms gdk_to_hypr
  | _ => ret gdk_to_hypr
  end.

Section Bars.

(** The constructor [StatusBar(monitor=gdk_idx, hyprland_monitor_name=
    hypr_name)] builds the window of a bar and its widgets, among them the
    [WorkspacesWidget] of that monitor name, whose [MonitorWorkspaces] runs
    its initial sync at once on a ready connection. What a construction does
    (the commands it sends, the exception it may raise) belongs to the
    toolkit and to every widget of the bar, and is taken as given. *)
Context {Bar : Type}.
Variable StatusBar : nat -> json -> M Bar.

(** The second part of [create_bars] (bar.py, lines 78 to 81): one bar per
    item of the dictionary, in its order, appended to [bars]. *)
Fixpoint construct_bars (items : list (nat * json)) (bars : list Bar)
  : M (list Bar) :=
  match items with
  | [] => ret bars
  | (gdk_idx, hypr_name) :: rest =>
      bar <- StatusBar gdk_idx hypr_name ;;
      construct_bars rest (bars ++ [bar])
  end.

Definition create_bars (display : Display) (conn : Connection)
  : M (list Bar) :=
  items <- gdk_to_hypr display conn ;;
  construct_bars items [].

End Bars.

(** ** Vocabulary of the properties *)

(** The world once the effects [es] are added to its trace. *)
Definition after (w : World) (es : list effect) : World :=
  mk_world (buttons w) (trace w ++ es).

(** A computation is pure when its outcome does not depend on the world and
    it hands the world back as it got it. *)
Definition pure {A} (c : M A) : Prop :=
  exists o, forall w, c w = (o, w).

(** What the membership query reports for [ws_id] over [connection]: the
    value [_get_workspace_monitor] returns ([None] is Python's [None]). *)
Definition reported_monitor (connection : Connection) (ws_id : Z)
  : option json :=
  match fst (_get_workspace_monitor connection ws_id initial_world) with
  | Returned m => m
  | Raised _ => None
  end.

(** Whether that report names the bound monitor. *)
Definition reports_bound (self : MonitorWorkspaces) (connection : Connection)
    (ws_id : Z) : bool :=
  match reported_monitor connection ws_id with
  | Some v => Py.eq_str v (_monitor_name self)
  | None => false
  end.

(** An entry of the workspace list that carries the id [n]. *)
Definition entry_has_id (n : Z) (e : json) : bool :=
  match e with
  | JObj kvs =>
      match Py.assoc "id" kvs with
      | Some i => Py.eq_int i n
      | None => false
      end
  | _ => false
  end.

(** An entry of the workspace list that carries an id, and not [n]. *)
Definition entry_has_other_id (n : Z) (e : json) : bool :=
  match e with
  | JObj kvs =>
      match Py.assoc "id" kvs with
      | Some i => negb (Py.eq_int i n)
      | None => false
      end
  | _ => false
  end.

(** The [monitor] field of an entry, if it has one. *)
Definition entry_monitor (e : json) : option json :=
  match e with
  | JObj kvs => Py.assoc "monitor" kvs
  | _ => None
  end.

(** The monitor an entry reports: its [monitor] field, the empty string
    when the field is missing. *)
Definition monitor_or_default (e : json) : json :=
  match entry_monitor e with
  | Some m => m
  | None => JStr ""
  end.

(** The integer id of an entry of the workspace list, if it has one. *)
Definition entry_id (e : json) : option Z :=
  match e with
  | JObj kvs =>
      match Py.assoc "id" kvs with
      | Some (JNum k) => Some k
      | _ => None
      end
  | _ => None
  end.

(** [c] maintains the property [P] of the Registry, whether it returns or
    raises. *)
Definition maintains (P : Registry.t -> Prop) {A} (c : M A) : Prop :=
  forall w, P (buttons w) -> P (buttons (snd (c w))).

(** The field of an event that carries the workspace id. *)
Definition id_field (s : signal) (event : HyprlandEvent) : string :=
  match s with
  | focusedmonv2 => nth 1 (data event) ""
  | _ => nth 0 (data event) ""
  end.

(** The query a signal's handler may send. *)
Definition query_of (s : signal) : list string :=
  match s with
  | workspacev2 | createworkspacev2 => ["j/workspaces"]
  | urgent_signal => ["j/clients"]
  | _ => []
  end.

(** The transitions a signal's handler may request from the Registry. *)
Definition may_request (s : signal) (e : effect) : bool :=
  match s, e with
  | workspacev2, Activated _ => true
  | focusedmonv2, Activated _ => true
  | createworkspacev2, Created _ => true
  | destroyworkspacev2, Destroyed _ => true
  | moveworkspacev2, Created _ => true
  | moveworkspacev2, Destroyed _ => true
  | urgent_signal, MarkedUrgent _ => true
  | _, _ => false
  end.

(** The transitions a trace requested from the Registry. *)
Definition transitions (t : list effect) : list effect :=
  filter (fun e => match e with Sent _ => false | _ => true end) t.

(** The address of a client of the [j/clients] list, when it is a string. *)
Definition client_address (c : json) : option string :=
  match c with
  | JObj kvs =>
      match Py.assoc "address" kvs with
      | Some (JStr a) => Some a
      | _ => None
      end
  | _ => None
  end.

Definition has_address (address : string) (c : json) : bool :=
  match client_address c with
  | Some a => String.eqb a address
  | None => false
  end.

(** The last client of the list that carries [address]. *)
Definition last_client (clients : list json) (address : string)
  : option json :=
  List.find (has_address address) (rev clients).

(** The [workspace] field of a client, [JNull] when it has none. *)
Definition client_workspace (c : json) : json :=
  match c with
  | JObj kvs =>
      match Py.assoc "workspace" kvs with
      | Some v => v
      | None => JNull
      end
  | _ => JNull
  end.

(** A dictionary whose keys are all strings. *)
Definition string_keys (d : list (json * json)) : Prop :=
  Forall (fun kv => exists a, fst kv = JStr a) d.

(** A [j/clients] list whose clients all carry a string address. *)
Definition addressed (clients : list json) : Prop :=
  Forall (fun c => client_address c <> None) clients.

(** What the initial sync asks of the Registry for one entry of the
    workspace list, for a widget bound to [name] and the active id
    [active]. *)
Definition sync_calls (name : string) (active : json) (e : json)
  : list effect :=
  match entry_monitor e, entry_id e with
  | Some m, Some k =>
      if Py.eq_str m name
      then Created k :: (if Py.eq_int active k then [Activated k] else [])
      else []
  | _, _ => []
  end.

(** An entry of the workspace list with a [monitor] field and an integer
    id. *)
Definition sync_entry (e : json) : Prop :=
  entry_monitor e <> None /\ entry_id e <> None.

(** An entry of the workspace list on a named monitor. *)
Definition on_named_monitor (e : json) : Prop :=
  exists m, entry_monitor e = Some (JStr m) /\ m <> "".

(** A Hyprland monitor with its [x], [y] and [name] fields. *)
Definition monitor_fields (hm : json) : option (json * json * json) :=
  match hm with
  | JObj kvs =>
      match Py.assoc "x" kvs, Py.assoc "y" kvs, Py.assoc "name" kvs with
      | Some hx, Some hy, Some name => Some (hx, hy, name)
      | _, _, _ => None
      end
  | _ => None
  end.

(** Whether a Hyprland monitor sits at the position of [geo]. *)
Definition monitor_at (geo : Rectangle) (hm : json) : bool :=
  match monitor_fields hm with
  | Some (hx, hy, _) =>
      Py.eq_int hx (geo_x geo) && Py.eq_int hy (geo_y geo)
  | None => false
  end.

(** The name of a Hyprland monitor, [JNull] when it has none. *)
Definition monitor_name (hm : json) : json :=
  match monitor_fields hm with
  | Some (_, _, name) => name
  | None => JNull
  end.

(** The name of the first Hyprland monitor at the position of [geo]. *)
Definition name_at (hypr_monitors : list json) (geo : Rectangle)
  : option json :=
  option_map monitor_name (List.find (monitor_at geo) hypr_monitors).

(** The assignment by position: each GDK monitor, from index [i] on, that
    has a Hyprland monitor at its position, with that monitor's name. *)
Fixpoint by_position (i : nat) (display : Display) (hypr_monitors : list json)
  : list (nat * json) :=
  match display with
  | [] => []
  | geo :: rest =>
      match name_at hypr_monitors geo with
      | Some name => (i, name) :: by_position (S i) rest hypr_monitors
      | None => by_position (S i) rest hypr_monitors
      end
  end.

(** The assignment by order: GDK monitor [i] with the name of the [i]-th
    Hyprland monitor, as far as both lists go. *)
Definition by_order (n_monitors : nat) (hypr_monitors : list json)
  : list (nat * json) :=
  combine (seq 0 n_monitors) (map monitor_name hypr_monitors).

(** The assignment [create_bars] settles on, on described monitors: by
    position if that assigns anything, by order otherwise. *)
Definition assignment (display : Display) (hypr_monitors : list json)
  : list (nat * json) :=
  match by_position 0 display hypr_monitors with
  | [] => by_order (length display) hypr_monitors
  | placed => placed
  end.

(** A [j/monitors] list whose monitors all have their [x], [y] and [name]
    fields. *)
Definition described (hypr_monitors : list json) : Prop :=
  Forall (fun hm => monitor_fields hm <> None) hypr_monitors.


(** ** Connections and replies of the scenarios *)

(** An interpreter for the concrete runs below: their events and documents
    are ASCII text, on which [int] does not consult the Unicode tables, so
    that these runs are those of every interpreter. *)
Definition ascii_interpreter : Interpreter :=
  {| unicode_int := fun _ => None |}.

(** A connection that answers the listed commands and fails on any other. *)
Definition answering (table : list (string * reply)) : Connection :=
  fun cmd =>
    match List.find (fun entry => String.eqb (fst entry) cmd) table with
    | Some entry => Some (snd entry)
    | None => None
    end.

(** A connection whose transport fails on every command. *)
Definition unreachable : Connection := fun _ => None.

(** An entry of a [j/workspaces] reply. *)
Definition workspace_entry (id : Z) (monitor : string) : json :=
  JObj [("id", JNum id); ("monitor", JStr monitor)].

(** An entry of a [j/clients] reply. *)
Definition client_entry (address : string) (workspace_id : Z) : json :=
  JObj [("address", JStr address);
        ("workspace", JObj [("id", JNum workspace_id)])].

(** A connection answering [j/clients] with the given clients. *)
Definition clients_connection (clients : list json) : Connection :=
  answering [("j/clients", Document (JArr clients))].

(** Workspace 1 on "DP-1", workspace 2 on "DP-2", workspace 1 active. *)
Definition initial_sync_connection : Connection :=
  answering
    [("j/workspaces",
      Document (JArr [workspace_entry 1 "DP-1"; workspace_entry 2 "DP-2"]));
     ("j/activeworkspace", Document (JObj [("id", JNum 1)]))].

(** A [j/workspaces] reply whose second entry has no [monitor] field. *)
Definition truncated_workspaces_connection : Connection :=
  answering
    [("j/workspaces",
      Document (JArr [workspace_entry 1 "DP-1"; JObj [("id", JNum 2)]]));
     ("j/activeworkspace", Document (JObj [("id", JNum 1)]))].

(** Both workspaces on "DP-1", workspace 1 active. *)
Definition same_monitor_connection : Connection :=
  answering
    [("j/workspaces",
      Document (JArr [workspace_entry 1 "DP-1"; workspace_entry 2 "DP-1"]));
     ("j/activeworkspace", Document (JObj [("id", JNum 1)]))].

(** An entry of a [j/monitors] reply. *)
Definition monitor_entry (name : string) (x y : Z) : json :=
  JObj [("name", JStr name); ("x", JNum x); ("y", JNum y)].

(** A constructor that only records its arguments, for concrete runs. *)
Definition recorded_bar (gdk_idx : nat) (hypr_name : json)
  : M (nat * json) :=
  ret (gdk_idx, hypr_name).

(** A connection answering [j/monitors] with the given monitors. *)
Definition monitors_connection (hypr_monitors : list json) : Connection :=
  answering [("j/monitors", Document (JArr hypr_monitors))].

(** * Properties *)

(** ** Computations that leave the world alone *)

Lemma pure_ret {A} (a : A) : pure (ret a).
Proof. exists (Returned a). reflexivity. Qed.

Lemma pure_raise {A} (e : exn) : pure (@raise A e).
Proof. exists (Raised e). reflexivity. Qed.

Lemma pure_bind {A B} (c : M A) (k : A -> M B) :
  pure c -> (forall a, pure (k a)) -> pure (c <- c ;; k c).
Proof.
  intros [o Ho] Hk. destruct o as [a | e].
  - destruct (Hk a) as [o' Ho']. exists o'. intro w.
    unfold bind. rewrite Ho. apply Ho'.
  - exists (Raised e). intro w. unfold bind. now rewrite Ho.
Qed.

Lemma pure_subscript v key : pure (Py.subscript v key).
Proof.
  destruct v as [| b | z | s | l | kvs]; simpl; try apply pure_raise.
  destruct (Py.assoc key kvs); [apply pure_ret | apply pure_raise].
Qed.

Lemma pure_get v key d : pure (Py.get v key d).
Proof.
  destruct v as [| b | z | s | l | kvs]; simpl; try apply pure_raise.
  destruct (Py.assoc key kvs); apply pure_ret.
Qed.

Lemma pure_iter v : pure (Py.iter v).
Proof. destruct v; simpl; solve [apply pure_ret | apply pure_raise]. Qed.

Lemma pure_json_loads r : pure (json_loads r).
Proof. destruct r; [apply pure_ret | apply pure_raise]. Qed.

Lemma pure_int_str {py : Interpreter} s : pure (Py.int_str s).
Proof.
  unfold Py.int_str. destruct (Py.int_of_string s);
    [apply pure_ret | apply pure_raise].
Qed.

Lemma pure_int {py : Interpreter} v : pure (Py.int v).
Proof.
  destruct v; simpl;
    solve [apply pure_ret | apply pure_raise | apply pure_int_str].
Qed.

Lemma pure_scan_workspaces n l : pure (scan_workspaces n l).
Proof.
  induction l as [| ws rest IH]; simpl.
  - apply pure_ret.
  - apply pure_bind; [apply pure_subscript |].
    intro i. destruct (Py.eq_int i n); [| exact IH].
    apply pure_bind; [apply pure_get | intro; apply pure_ret].
Qed.

Lemma pure_clients_by_address l : forall acc, pure (clients_by_address l acc).
Proof.
  induction l as [| c rest IH]; intro acc; simpl.
  - apply pure_ret.
  - apply pure_bind; [apply pure_subscript |].
    intro k. destruct (Py.hashable k); [apply IH | apply pure_raise].
Qed.

(** ** The membership query *)

(** The membership query never raises, sends exactly one [j/workspaces]
    query and leaves the Registry alone. *)
Lemma get_workspace_monitor_run connection ws_id w :
  _get_workspace_monitor connection ws_id w =
  (Returned (reported_monitor connection ws_id),
   after w [Sent "j/workspaces"]).
Proof.
  unfold reported_monitor, _get_workspace_monitor, try_except, bind,
    send_command, emit, after; simpl.
  destruct (connection "j/workspaces") as [[j |] |]; simpl; try reflexivity.
  destruct j as [| b | z | s | l | kvs]; simpl; try reflexivity.
  - pose proof (pure_scan_workspaces ws_id (Py.chars s)) as [o Ho].
    rewrite !Ho. destruct o; reflexivity.
  - pose proof (pure_scan_workspaces ws_id l) as [o Ho].
    rewrite !Ho. destruct o; reflexivity.
  - pose proof (pure_scan_workspaces ws_id
      (map (fun kv => JStr (fst kv)) kvs)) as [o Ho].
    rewrite !Ho. destruct o; reflexivity.
Qed.

Lemma is_mine_run self connection ws_id w :
  _is_mine self connection ws_id w =
  (Returned (reports_bound self connection ws_id),
   after w [Sent "j/workspaces"]).
Proof.
  unfold _is_mine, bind. rewrite get_workspace_monitor_run. reflexivity.
Qed.

Lemma scan_workspaces_skip n pre rest w :
  forallb (entry_has_other_id n) pre = true ->
  scan_workspaces n (pre ++ rest) w = scan_workspaces n rest w.
Proof.
  induction pre as [| e pre IH]; simpl; intro H; [reflexivity |].
  apply andb_true_iff in H as [He Hpre].
  destruct e as [| b | z | s | l | kvs]; simpl in He; try discriminate.
  unfold bind; simpl.
  destruct (Py.assoc "id" kvs) as [i |]; [| discriminate]. simpl.
  apply negb_true_iff in He. rewrite He. now apply IH.
Qed.

Lemma scan_workspaces_hit n e rest w :
  entry_has_id n e = true ->
  scan_workspaces n (e :: rest) w = (Returned (Some (monitor_or_default e)), w).
Proof.
  destruct e as [| b | z | s | l | kvs]; simpl; try discriminate.
  unfold bind, monitor_or_default; simpl.
  destruct (Py.assoc "id" kvs) as [i |]; [| discriminate]. simpl.
  intros ->. destruct (Py.assoc "monitor" kvs); reflexivity.
Qed.

(** A failed query reports nothing. *)
Lemma reported_monitor_failure connection n :
  connection "j/workspaces" = None \/
  connection "j/workspaces" = Some Garbled ->
  reported_monitor connection n = None.
Proof.
  unfold reported_monitor, _get_workspace_monitor, try_except, bind,
    send_command, emit; simpl.
  intros [-> | ->]; reflexivity.
Qed.

(** A list with no entry for [n] reports nothing. *)
Lemma reported_monitor_no_match connection n entries :
  connection "j/workspaces" = Some (Document (JArr entries)) ->
  forallb (entry_has_other_id n) entries = true ->
  reported_monitor connection n = None.
Proof.
  intros Hc Hall.
  unfold reported_monitor, _get_workspace_monitor, try_except, bind,
    send_command, emit; simpl.
  rewrite Hc; simpl.
  rewrite <- (app_nil_r entries), scan_workspaces_skip by assumption.
  reflexivity.
Qed.

(** The first entry for [n] decides what is reported. *)
Lemma reported_monitor_first_match connection n pre e post :
  connection "j/workspaces" = Some (Document (JArr (pre ++ e :: post))) ->
  forallb (entry_has_other_id n) pre = true ->
  entry_has_id n e = true ->
  reported_monitor connection n = Some (monitor_or_default e).
Proof.
  intros Hc Hpre He.
  unfold reported_monitor, _get_workspace_monitor, try_except, bind,
    send_command, emit; simpl.
  rewrite Hc; simpl.
  rewrite scan_workspaces_skip, scan_workspaces_hit by assumption.
  reflexivity.
Qed.

(** ** Event handlers, run *)

(** On ASCII text [int] does not depend on the interpreter's tables. *)
Lemma int_of_string_ascii (p1 p2 : Interpreter) s :
  Py.is_ascii s = true ->
  Py.int_of_string (py := p1) s = Py.int_of_string (py := p2) s.
Proof. unfold Py.int_of_string. now intros ->. Qed.

Lemma int_str_run {py : Interpreter} s n w :
  Py.int_of_string s = Some n -> Py.int_str s w = (Returned n, w).
Proof. unfold Py.int_str. now intros ->. Qed.

Lemma arity_two_passes event :
  length (data event) = 2%nat ->
  negb (length (data event) =? 2)%nat = false.
Proof. now intros ->. Qed.

Lemma on_create_workspace_run {py : Interpreter} self connection event w n :
  length (data event) = 2%nat ->
  Py.int_of_string (nth 0 (data event) "") = Some n ->
  on_create_workspace self connection event w =
  (Returned tt,
   if reports_bound self connection n
   then mk_world (Registry.create n (buttons w))
                 (trace w ++ [Sent "j/workspaces"; Created n])
   else after w [Sent "j/workspaces"]).
Proof.
  intros Hlen Hid. unfold on_create_workspace.
  rewrite (arity_two_passes _ Hlen). unfold bind.
  rewrite (int_str_run _ _ _ Hid), is_mine_run.
  destruct (reports_bound self connection n); [| reflexivity].
  unfold workspace_created, bind, emit, update_buttons, after; simpl.
  now rewrite <- app_assoc.
Qed.

Lemma on_workspace_run {py : Interpreter} self connection event w n :
  length (data event) = 2%nat ->
  Py.int_of_string (nth 0 (data event) "") = Some n ->
  on_workspace self connection event w =
  (Returned tt,
   if reports_bound self connection n
   then mk_world (Registry.activate n (buttons w))
                 (trace w ++ [Sent "j/workspaces"; Activated n])
   else after w [Sent "j/workspaces"]).
Proof.
  intros Hlen Hid. unfold on_workspace.
  rewrite (arity_two_passes _ Hlen). unfold bind.
  rewrite (int_str_run _ _ _ Hid), is_mine_run.
  destruct (reports_bound self connection n); [| reflexivity].
  unfold workspace_activated, bind, emit, update_buttons, after; simpl.
  now rewrite <- app_assoc.
Qed.

Lemma on_destroy_workspace_run {py : Interpreter} event w n :
  length (data event) = 2%nat ->
  Py.int_of_string (nth 0 (data event) "") = Some n ->
  on_destroy_workspace event w =
  (Returned tt,
   if Registry.holds (buttons w) n
   then mk_world (Registry.destroy n (buttons w)) (trace w ++ [Destroyed n])
   else w).
Proof.
  intros Hlen Hid. unfold on_destroy_workspace.
  rewrite (arity_two_passes _ Hlen). unfold bind.
  rewrite (int_str_run _ _ _ Hid). unfold buttons_get.
  destruct (Registry.holds (buttons w) n); reflexivity.
Qed.

Lemma on_move_workspace_run {py : Interpreter} self event w n :
  length (data event) = 2%nat ->
  Py.int_of_string (nth 0 (data event) "") = Some n ->
  on_move_workspace self event w =
  (Returned tt,
   if String.eqb (nth 1 (data event) "") (_monitor_name self)
   then mk_world (Registry.create n (buttons w)) (trace w ++ [Created n])
   else if Registry.holds (buttons w) n
   then mk_world (Registry.destroy n (buttons w)) (trace w ++ [Destroyed n])
   else w).
Proof.
  intros Hlen Hid. unfold on_move_workspace.
  rewrite (arity_two_passes _ Hlen). unfold bind.
  rewrite (int_str_run _ _ _ Hid).
  destruct (String.eqb _ _); [reflexivity |].
  unfold buttons_get.
  destruct (Registry.holds (buttons w) n); reflexivity.
Qed.

(** ** The Registry's transitions *)

Module RegistryFacts.
Import Registry.

Lemma holds_iff_iterate r id : holds r id = true <-> In id (iterate r).
Proof.
  unfold holds, iterate. rewrite existsb_exists, in_map_iff.
  split; intros [w [H1 H2]]; exists w.
  - apply Z.eqb_eq in H2. now split.
  - split; [assumption | now apply Z.eqb_eq].
Qed.

Lemma not_holds_iff_iterate r id : holds r id = false <-> ~ In id (iterate r).
Proof.
  rewrite <- holds_iff_iterate. destruct (holds r id); split; intro H;
    try reflexivity; try discriminate.
  now contradiction H.
Qed.

Lemma iterate_create id r :
  iterate (create id r) = if holds r id then iterate r else iterate r ++ [id].
Proof.
  unfold create. destruct (holds r id); [reflexivity |].
  unfold iterate. now rewrite map_app.
Qed.

Lemma holds_create id r : holds (create id r) id = true.
Proof.
  apply holds_iff_iterate. rewrite iterate_create.
  destruct (holds r id) eqn:H.
  - now apply holds_iff_iterate.
  - apply in_or_app. right. now left.
Qed.

Lemma iterate_destroy id r :
  iterate (destroy id r) = filter (fun k => negb (k =? id)) (iterate r).
Proof.
  unfold destroy, iterate. induction r as [| w r IH]; simpl; [reflexivity |].
  destruct (ws_id w =? id); simpl; now rewrite IH.
Qed.

Lemma holds_destroy id r : holds (destroy id r) id = false.
Proof.
  apply not_holds_iff_iterate. rewrite iterate_destroy, filter_In.
  intros [_ H]. now rewrite Z.eqb_refl in H.
Qed.

(** Destroying an id that is not held changes nothing. *)
Lemma destroy_absent id r : holds r id = false -> destroy id r = r.
Proof.
  unfold holds, destroy. induction r as [| w r IH]; simpl; [reflexivity |].
  intro H. apply orb_false_iff in H as [H1 H2].
  rewrite H1; simpl. now rewrite IH.
Qed.

Lemma iterate_activate id r : iterate (activate id r) = iterate r.
Proof.
  unfold activate, iterate. destruct (holds r id); [| reflexivity].
  rewrite map_map. reflexivity.
Qed.

Lemma iterate_mark_urgent id r : iterate (mark_urgent id r) = iterate r.
Proof.
  unfold mark_urgent, iterate. rewrite map_map. apply map_ext.
  intro w. now destruct (ws_id w =? id).
Qed.

Lemma actives_app r1 r2 : actives (r1 ++ r2) = actives r1 ++ actives r2.
Proof. apply filter_app. Qed.

Lemma actives_create id r : actives (create id r) = actives r.
Proof.
  unfold create. destruct (holds r id); [reflexivity |].
  rewrite actives_app. simpl. apply app_nil_r.
Qed.

Lemma actives_destroy_length id r :
  (length (actives (destroy id r)) <= length (actives r))%nat.
Proof.
  unfold actives, destroy. induction r as [| w r IH]; simpl; [lia |].
  destruct (ws_id w =? id), (ws_active w) eqn:Ha; simpl;
    rewrite ?Ha; simpl; lia.
Qed.

Lemma actives_mark_urgent_length id r :
  length (actives (mark_urgent id r)) = length (actives r).
Proof.
  unfold actives, mark_urgent. induction r as [| w r IH]; simpl; [reflexivity |].
  destruct (ws_id w =? id), (ws_active w) eqn:Ha; simpl;
    rewrite ?Ha; simpl; now rewrite ?IH.
Qed.

(** With distinct ids, at most one workspace carries a given id. *)
Lemma carriers_at_most_one id r :
  NoDup (iterate r) ->
  (length (filter (fun w => (ws_id w =? id)%Z) r) <= 1)%nat.
Proof.
  induction r as [| w r IH]; simpl; intro Hnd; [lia |].
  inversion Hnd as [| k ks Hnotin Hnd']; subst.
  destruct (ws_id w =? id) eqn:E; simpl; [| now apply IH].
  apply Z.eqb_eq in E. subst id.
  assert (H : filter (fun w0 => ws_id w0 =? ws_id w) r = []).
  { destruct (filter _ r) as [| x xs] eqn:F; [reflexivity | exfalso].
    assert (Hin : In x (filter (fun w0 => ws_id w0 =? ws_id w) r))
      by (rewrite F; now left).
    apply filter_In in Hin as [Hin Hx]. apply Z.eqb_eq in Hx.
    apply Hnotin. rewrite <- Hx. now apply in_map. }
  rewrite H. simpl. lia.
Qed.

Lemma actives_activate id r :
  holds r id = true ->
  length (actives (activate id r)) =
  length (filter (fun w => ws_id w =? id) r).
Proof.
  intro H. unfold activate, actives. rewrite H. clear H.
  induction r as [| w r IH]; simpl; [reflexivity |].
  destruct (ws_id w =? id); simpl; now rewrite IH.
Qed.

Lemma consistent_empty : consistent empty.
Proof. split; [constructor | unfold at_most_one_active; simpl; lia]. Qed.

Lemma consistent_create id r : consistent r -> consistent (create id r).
Proof.
  intros [Hnd Ha]. split.
  - rewrite iterate_create. destruct (holds r id) eqn:H; [assumption |].
    apply not_holds_iff_iterate in H.
    apply NoDup_app; [assumption | repeat constructor; easy |].
    intros k Hk [<- | []]. now apply H.
  - unfold at_most_one_active. now rewrite actives_create.
Qed.

Lemma consistent_destroy id r : consistent r -> consistent (destroy id r).
Proof.
  intros [Hnd Ha]. split.
  - rewrite iterate_destroy. now apply NoDup_filter.
  - unfold at_most_one_active in *.
    pose proof (actives_destroy_length id r). lia.
Qed.

Lemma consistent_activate id r : consistent r -> consistent (activate id r).
Proof.
  intros [Hnd Ha]. split.
  - now rewrite iterate_activate.
  - unfold at_most_one_active. destruct (holds r id) eqn:H.
    + rewrite actives_activate by assumption.
      now apply carriers_at_most_one.
    + unfold activate. now rewrite H.
Qed.

Lemma consistent_mark_urgent id r :
  consistent r -> consistent (mark_urgent id r).
Proof.
  intros [Hnd Ha]. split.
  - now rewrite iterate_mark_urgent.
  - unfold at_most_one_active. now rewrite actives_mark_urgent_length.
Qed.

(** After [activate id] on a held [id], the active workspaces are exactly
    those with id [id]. *)
Lemma activate_flags id r w :
  holds r id = true ->
  In w (activate id r) -> ws_active w = (ws_id w =? id).
Proof.
  intro H. unfold activate. rewrite H. rewrite in_map_iff.
  intros [x [<- _]]. reflexivity.
Qed.

Lemma find_mark_urgent id r :
  holds r id = true ->
  exists w, find (mark_urgent id r) id = Some w /\ ws_id w = id
            /\ ws_urgent w = true.
Proof.
  unfold holds, find, mark_urgent.
  induction r as [| x r IH]; simpl; [discriminate |].
  destruct (ws_id x =? id) eqn:E; simpl.
  - intros _. rewrite E. eexists. split; [reflexivity |]. simpl.
    split; [now apply Z.eqb_eq | reflexivity].
  - rewrite E. exact IH.
Qed.

End RegistryFacts.

(** ** Scenarios and claims *)

(** C2. Initial sync scenario: bound to "DP-1", with [j/workspaces]
    answering workspaces 1 on "DP-1" and 2 on "DP-2" and [j/activeworkspace]
    answering id 1, the initial sync of a fresh widget returns and leaves the
    Registry holding exactly workspace 1, with [active] set; it asked for
    workspace 1 to be created and activated, and for nothing about
    workspace 2. *)
Theorem initial_sync_scenario (empty_scroll : bool) :
  let result :=
    on_ready (mk_self "DP-1" empty_scroll) initial_sync_connection
      initial_world in
  fst result = Returned tt /\
  Registry.iterate (buttons (snd result)) = [1] /\
  buttons (snd result) = [Registry.mk_workspace 1 true false] /\
  trace (snd result) =
    [Sent "j/workspaces"; Sent "j/activeworkspace"; Created 1; Activated 1].
Proof.
  destruct empty_scroll; cbv zeta; vm_compute; repeat split.
Qed.

(** C3. Membership-gated creation: a workspace-created event of correct
    arity for id [n] returns normally after one fresh [j/workspaces] query;
    it asks the Registry to create [n] exactly when the membership query
    reports the bound monitor, and leaves the Registry unchanged otherwise,
    in particular when the query fails, when the list has no entry for [n],
    and when the entry for [n] reports another monitor. *)
Theorem create_gated_by_membership {py : Interpreter} self connection event w n :
  length (data event) = 2%nat ->
  Py.int_of_string (nth 0 (data event) "") = Some n ->
  let result := on_create_workspace self connection event w in
  fst result = Returned tt /\
  (reports_bound self connection n = true ->
   trace (snd result) = trace w ++ [Sent "j/workspaces"; Created n] /\
   buttons (snd result) = Registry.create n (buttons w)) /\
  (reports_bound self connection n = false ->
   trace (snd result) = trace w ++ [Sent "j/workspaces"] /\
   buttons (snd result) = buttons w) /\
  (connection "j/workspaces" = None \/
   connection "j/workspaces" = Some Garbled ->
   reports_bound self connection n = false) /\
  (forall entries,
     connection "j/workspaces" = Some (Document (JArr entries)) ->
     forallb (entry_has_other_id n) entries = true ->
     reports_bound self connection n = false) /\
  (forall pre e post,
     connection "j/workspaces" = Some (Document (JArr (pre ++ e :: post))) ->
     forallb (entry_has_other_id n) pre = true ->
     entry_has_id n e = true ->
     reports_bound self connection n =
     Py.eq_str (monitor_or_default e) (_monitor_name self)).
Proof.
  intros Hlen Hid result. subst result.
  rewrite (on_create_workspace_run _ _ _ _ _ Hlen Hid).
  split; [reflexivity |].
  split; [now intros -> |].
  split; [now intros -> |].
  split; [| split].
  - intro H. unfold reports_bound.
    now rewrite (reported_monitor_failure _ _ H).
  - intros entries Hc Hall. unfold reports_bound.
    now rewrite (reported_monitor_no_match _ _ _ Hc Hall).
  - intros pre e post Hc Hpre He. unfold reports_bound.
    now rewrite (reported_monitor_first_match _ _ _ _ _ Hc Hpre He).
Qed.

Lemma create_gated_by_membership_witness :
  let self := mk_self "DP-1" false in
  let connection :=
    answering [("j/workspaces",
                Document (JArr [workspace_entry 5 "DP-1"]))] in
  let event := mk_event ["5"; "five"] in
  let result := on_create_workspace (py := ascii_interpreter)
      self connection event initial_world in
  fst result = Returned tt /\
  trace (snd result) = [Sent "j/workspaces"; Created 5] /\
  Registry.iterate (buttons (snd result)) = [5].
Proof.
  cbv zeta.
  destruct (create_gated_by_membership (py := ascii_interpreter)
      (mk_self "DP-1" false)
              (answering [("j/workspaces",
                           Document (JArr [workspace_entry 5 "DP-1"]))])
              (mk_event ["5"; "five"]) initial_world 5
              eq_refl eq_refl) as [Hret [Hyes _]].
  destruct (Hyes eq_refl) as [Htrace Hbuttons].
  split; [exact Hret |]. split; [exact Htrace |].
  rewrite Hbuttons. reflexivity.
Defined.

(** C4. Unconditional destroy: a workspace-destroyed event of correct arity
    for id [n] returns normally and sends nothing over the connection; if
    the Registry holds [n] it asks for [n] to be destroyed and [n] is gone
    afterwards; if not, nothing changes at all. *)
Theorem destroy_unconditional {py : Interpreter} event w n :
  length (data event) = 2%nat ->
  Py.int_of_string (nth 0 (data event) "") = Some n ->
  let result := on_destroy_workspace event w in
  fst result = Returned tt /\
  (Registry.holds (buttons w) n = true ->
   trace (snd result) = trace w ++ [Destroyed n] /\
   buttons (snd result) = Registry.destroy n (buttons w) /\
   ~ In n (Registry.iterate (buttons (snd result)))) /\
  (Registry.holds (buttons w) n = false -> snd result = w) /\
  sent (trace (snd result)) = sent (trace w).
Proof.
  intros Hlen Hid result. subst result.
  rewrite (on_destroy_workspace_run _ _ _ Hlen Hid).
  destruct (Registry.holds (buttons w) n) eqn:H; simpl.
  - split; [reflexivity |]. split; [| split; [discriminate |]].
    + intros _. split; [reflexivity |]. split; [reflexivity |].
      apply RegistryFacts.not_holds_iff_iterate.
      apply RegistryFacts.holds_destroy.
    + unfold sent. rewrite flat_map_app. simpl. apply app_nil_r.
  - split; [reflexivity |]. split; [discriminate |].
    split; reflexivity.
Qed.

Lemma destroy_unconditional_witness :
  let w := mk_world [Registry.mk_workspace 7 false false] [] in
  let result := on_destroy_workspace (py := ascii_interpreter)
      (mk_event ["7"; "seven"]) w in
  fst result = Returned tt /\
  trace (snd result) = [Destroyed 7] /\
  buttons (snd result) = [].
Proof.
  cbv zeta.
  destruct (destroy_unconditional (py := ascii_interpreter)
      (mk_event ["7"; "seven"])
              (mk_world [Registry.mk_workspace 7 false false] []) 7
              eq_refl eq_refl) as [Hret [Hheld _]].
  destruct (Hheld eq_refl) as [Htrace [Hbuttons _]].
  split; [exact Hret |]. split; [exact Htrace | exact Hbuttons].
Defined.

(** C5. Move atomicity: after a workspace-moved event of correct arity for
    id [n] towards monitor [m], [n] is in [iterate()] if [m] is the bound
    monitor (the handler asked for its creation); [n] is absent from
    [iterate()] if [m] is another monitor and [n] was held (the handler
    asked for its destruction); and nothing changes if [m] is another
    monitor and [n] was not held. *)
Theorem move_atomicity {py : Interpreter} self event w n :
  length (data event) = 2%nat ->
  Py.int_of_string (nth 0 (data event) "") = Some n ->
  let m := nth 1 (data event) "" in
  let result := on_move_workspace self event w in
  fst result = Returned tt /\
  (m = _monitor_name self ->
   trace (snd result) = trace w ++ [Created n] /\
   In n (Registry.iterate (buttons (snd result)))) /\
  (m <> _monitor_name self -> Registry.holds (buttons w) n = true ->
   trace (snd result) = trace w ++ [Destroyed n] /\
   ~ In n (Registry.iterate (buttons (snd result)))) /\
  (m <> _monitor_name self -> Registry.holds (buttons w) n = false ->
   snd result = w).
Proof.
  intros Hlen Hid m result. subst m result.
  rewrite (on_move_workspace_run _ _ _ _ Hlen Hid).
  destruct (String.eqb_spec (nth 1 (data event) "") (_monitor_name self))
    as [Heq | Hneq]; simpl.
  - split; [reflexivity |]. split; [| split; intro; contradiction].
    intros _. split; [reflexivity |].
    apply RegistryFacts.holds_iff_iterate.
    apply RegistryFacts.holds_create.
  - split; [reflexivity |]. split; [intro; contradiction |].
    destruct (Registry.holds (buttons w) n) eqn:H; simpl.
    + split; [| discriminate].
      intros _ _. split; [reflexivity |].
      apply RegistryFacts.not_holds_iff_iterate.
      apply RegistryFacts.holds_destroy.
    + split; [discriminate | reflexivity].
Qed.

Lemma move_atomicity_witness :
  let self := mk_self "DP-1" false in
  let w := mk_world [Registry.mk_workspace 4 true false] [] in
  In 9 (Registry.iterate
          (buttons (snd (on_move_workspace (py := ascii_interpreter)
              self (mk_event ["9"; "DP-1"]) w))))
  /\
  ~ In 4 (Registry.iterate
            (buttons (snd (on_move_workspace (py := ascii_interpreter)
                self (mk_event ["4"; "DP-2"]) w)))).
Proof.
  cbv zeta. split.
  - destruct (move_atomicity (py := ascii_interpreter)
      (mk_self "DP-1" false) (mk_event ["9"; "DP-1"])
                (mk_world [Registry.mk_workspace 4 true false] []) 9
                eq_refl eq_refl) as [_ [Harrive _]].
    exact (proj2 (Harrive eq_refl)).
  - destruct (move_atomicity (py := ascii_interpreter)
      (mk_self "DP-1" false) (mk_event ["4"; "DP-2"])
                (mk_world [Registry.mk_workspace 4 true false] []) 4
                eq_refl eq_refl) as [_ [_ [Hleave _]]].
    apply Hleave; [discriminate | reflexivity].
Defined.

(** C6. Arity guard: an event of any of the six handled signals whose number
    of fields differs from the documented arity of its signal is dropped:
    the handler returns at once, the Registry is not touched and nothing is
    sent over the connection (the world is the same, trace included). *)
Theorem arity_guard {py : Interpreter} self connection s event w :
  length (data event) <> arity s ->
  handler self connection s event w = (Returned tt, w).
Proof.
  intro H.
  destruct s; simpl in *;
    unfold on_workspace, on_monitor, on_create_workspace,
      on_destroy_workspace, on_move_workspace, on_urgent;
    match goal with
    | |- context [(?a =? ?b)%nat] => destruct (Nat.eqb_spec a b)
    end; solve [contradiction | reflexivity].
Qed.

Lemma arity_guard_witness :
  let w := mk_world [Registry.mk_workspace 3 false false] [] in
  handler (py := ascii_interpreter)
      (mk_self "DP-1" false) unreachable urgent_signal
    (mk_event ["abc"; "extra"]) w = (Returned tt, w)
  /\
  handler (py := ascii_interpreter)
      (mk_self "DP-1" false) unreachable destroyworkspacev2
    (mk_event ["3"]) w = (Returned tt, w).
Proof.
  cbv zeta. split.
  - apply (arity_guard (py := ascii_interpreter)
      (mk_self "DP-1" false) unreachable urgent_signal
             (mk_event ["abc"; "extra"])).
    simpl. lia.
  - apply (arity_guard (py := ascii_interpreter)
      (mk_self "DP-1" false) unreachable destroyworkspacev2
             (mk_event ["3"])).
    simpl. lia.
Defined.

(** C9. User-driven actions: "next" and "previous" send
    [batch/dispatch workspace e+1] and [batch/dispatch workspace e-1] when
    the empty-scroll flag is false, [batch/dispatch workspace +1] and
    [batch/dispatch workspace -1] when it is true; a click on the button of
    id [n] sends [batch/dispatch workspace n], [n] written in decimal (as
    for 7 and -99). None of them touches the Registry. *)
Theorem user_actions_dispatch monitor connection w n :
  snd (do_action_next (mk_self monitor false) connection w) =
    after w [Sent "batch/dispatch workspace e+1"] /\
  snd (do_action_previous (mk_self monitor false) connection w) =
    after w [Sent "batch/dispatch workspace e-1"] /\
  snd (do_action_next (mk_self monitor true) connection w) =
    after w [Sent "batch/dispatch workspace +1"] /\
  snd (do_action_previous (mk_self monitor true) connection w) =
    after w [Sent "batch/dispatch workspace -1"] /\
  snd (do_button_clicked connection n w) =
    after w [Sent ("batch/dispatch workspace " ++ Py.str_int n)] /\
  snd (do_button_clicked connection 7 w) =
    after w [Sent "batch/dispatch workspace 7"] /\
  snd (do_button_clicked connection (-99) w) =
    after w [Sent "batch/dispatch workspace -99"].
Proof.
  unfold do_action_next, do_action_previous, do_button_clicked,
    send_command, bind, emit, after; simpl.
  repeat split;
    match goal with
    | |- context [connection ?c] => destruct (connection c)
    end; reflexivity.
Qed.

(** C10, as the claim words it: bound to the empty string, with a
    [j/workspaces] reply that contains an entry with id 5 and no [monitor]
    field, but after an entry with id 5 on "DP-1". The scan stops at the
    first entry for 5 and reports "DP-1": the workspace-created and the
    workspace-changed event for 5 are both dropped. *)
Lemma empty_monitor_name_later_entry_counterexample :
  let entries := [workspace_entry 5 "DP-1"; JObj [("id", JNum 5)]] in
  let connection := answering [("j/workspaces", Document (JArr entries))] in
  let self := mk_self "" false in
  let event := mk_event ["5"; "five"] in
  let w := mk_world [Registry.mk_workspace 5 false false] [] in
  In (JObj [("id", JNum 5)]) entries /\
  entry_has_id 5 (JObj [("id", JNum 5)]) = true /\
  entry_monitor (JObj [("id", JNum 5)]) = None /\
  on_create_workspace (py := ascii_interpreter) self connection event
    initial_world =
    (Returned tt, mk_world [] [Sent "j/workspaces"]) /\
  on_workspace (py := ascii_interpreter) self connection event w =
    (Returned tt, mk_world (buttons w) [Sent "j/workspaces"]).
Proof.
  cbv zeta. split; [right; left; reflexivity |].
  repeat split.
Qed.

(** C10, amended: for a widget bound to the empty string, when the first
    entry for [n] in the [j/workspaces] reply (every entry before it carries
    another id) has no [monitor] field, the membership query reports the
    empty string, which equals the bound name: a workspace-changed event of
    correct arity for [n] asks the Registry to activate [n] and a
    workspace-created event of correct arity for [n] asks it to create
    [n]. *)
Theorem empty_monitor_name_matches_first_entry {py : Interpreter}
    empty_scroll connection event w n pre e post :
  length (data event) = 2%nat ->
  Py.int_of_string (nth 0 (data event) "") = Some n ->
  connection "j/workspaces" = Some (Document (JArr (pre ++ e :: post))) ->
  forallb (entry_has_other_id n) pre = true ->
  entry_has_id n e = true ->
  entry_monitor e = None ->
  let self := mk_self "" empty_scroll in
  reported_monitor connection n = Some (JStr "") /\
  on_workspace self connection event w =
    (Returned tt,
     mk_world (Registry.activate n (buttons w))
              (trace w ++ [Sent "j/workspaces"; Activated n])) /\
  on_create_workspace self connection event w =
    (Returned tt,
     mk_world (Registry.create n (buttons w))
              (trace w ++ [Sent "j/workspaces"; Created n])).
Proof.
  intros Hlen Hid Hc Hpre He Hmon self. subst self.
  assert (Hrep : reported_monitor connection n = Some (JStr "")).
  { rewrite (reported_monitor_first_match _ _ _ _ _ Hc Hpre He).
    unfold monitor_or_default. now rewrite Hmon. }
  split; [exact Hrep |].
  rewrite (on_workspace_run _ _ _ _ _ Hlen Hid),
    (on_create_workspace_run _ _ _ _ _ Hlen Hid).
  unfold reports_bound. rewrite Hrep. simpl. split; reflexivity.
Qed.

Lemma empty_monitor_name_matches_first_entry_witness :
  let connection :=
    answering [("j/workspaces",
                Document (JArr [workspace_entry 1 "DP-1";
                                JObj [("id", JNum 5)];
                                workspace_entry 5 "DP-1"]))] in
  let self := mk_self "" false in
  on_workspace (py := ascii_interpreter) self connection
    (mk_event ["5"; "five"])
    (mk_world [Registry.mk_workspace 5 false false] []) =
  (Returned tt,
   mk_world [Registry.mk_workspace 5 true false]
            [Sent "j/workspaces"; Activated 5])
  /\
  on_create_workspace (py := ascii_interpreter) self connection
    (mk_event ["5"; "five"]) initial_world =
  (Returned tt,
   mk_world [Registry.mk_workspace 5 false false]
            [Sent "j/workspaces"; Created 5]).
Proof.
  cbv zeta. split.
  - destruct (empty_monitor_name_matches_first_entry
                (py := ascii_interpreter) false
                (answering [("j/workspaces",
                             Document (JArr [workspace_entry 1 "DP-1";
                                             JObj [("id", JNum 5)];
                                             workspace_entry 5 "DP-1"]))])
                (mk_event ["5"; "five"])
                (mk_world [Registry.mk_workspace 5 false false] [])
                5 [workspace_entry 1 "DP-1"] (JObj [("id", JNum 5)])
                [workspace_entry 5 "DP-1"]
                eq_refl eq_refl eq_refl eq_refl eq_refl eq_refl)
      as [_ [Hact _]].
    exact Hact.
  - destruct (empty_monitor_name_matches_first_entry
                (py := ascii_interpreter) false
                (answering [("j/workspaces",
                             Document (JArr [workspace_entry 1 "DP-1";
                                             JObj [("id", JNum 5)];
                                             workspace_entry 5 "DP-1"]))])
                (mk_event ["5"; "five"]) initial_world
                5 [workspace_entry 1 "DP-1"] (JObj [("id", JNum 5)])
                [workspace_entry 5 "DP-1"]
                eq_refl eq_refl eq_refl eq_refl eq_refl eq_refl)
      as [_ [_ Hcre]].
    exact Hcre.
Defined.

(** ** Urgency *)

(** A failed [j/clients] query raises out of [on_urgent] before the Registry
    is consulted. *)
Lemma on_urgent_query_failure {py : Interpreter} connection address w :
  connection "j/clients" = None \/ connection "j/clients" = Some Garbled ->
  exists e,
    on_urgent connection (mk_event [address]) w =
    (Raised e, after w [Sent "j/clients"]).
Proof.
  unfold on_urgent, bind, send_command, emit, after; simpl.
  intros [-> | ->]; simpl; eexists; reflexivity.
Qed.

(** C7, as the spec words it: with [j/clients] answering a client of address
    "abc" on workspace 3 and an urgent event of field "abc", a Registry
    holding workspace 3 is left as it was: the handler looks the client up
    under "0xabc", finds none and returns; workspace 3 is not urgent. *)
Lemma urgent_scenario_unprefixed_address_counterexample :
  let w := mk_world [Registry.mk_workspace 3 false false] [] in
  let result :=
    on_urgent (py := ascii_interpreter)
        (clients_connection [client_entry "abc" 3])
      (mk_event ["abc"]) w in
  Registry.holds (buttons w) 3 = true /\
  fst result = Returned tt /\
  Registry.find (buttons (snd result)) 3 =
    Some (Registry.mk_workspace 3 false false) /\
  ~ In (MarkedUrgent 3) (trace (snd result)).
Proof.
  cbv zeta. vm_compute.
  split; [reflexivity |]. split; [reflexivity |]. split; [reflexivity |].
  intros [H | []]. discriminate H.
Qed.

(** C7, amended: with [j/clients] answering a client of address "0xabc" on
    workspace 3 and an urgent event of field "abc", a Registry holding
    workspace 3 marks it urgent; with [j/clients] answering an empty list,
    or with the query failing, the Registry is not mutated. *)
Theorem urgent_resolution {py : Interpreter} w :
  Registry.holds (buttons w) 3 = true ->
  let event := mk_event ["abc"] in
  (let result :=
     on_urgent (clients_connection [client_entry "0xabc" 3]) event w in
   fst result = Returned tt /\
   trace (snd result) = trace w ++ [Sent "j/clients"; MarkedUrgent 3] /\
   buttons (snd result) = Registry.mark_urgent 3 (buttons w) /\
   exists ws, Registry.find (buttons (snd result)) 3 = Some ws /\
              Registry.ws_urgent ws = true) /\
  buttons (snd (on_urgent (clients_connection []) event w)) = buttons w /\
  (forall connection,
     connection "j/clients" = None \/ connection "j/clients" = Some Garbled ->
     buttons (snd (on_urgent connection event w)) = buttons w).
Proof.
  intros Hheld event. subst event. split; [| split].
  - unfold on_urgent, bind, send_command, emit, buttons_get; simpl.
    rewrite Hheld. simpl.
    split; [reflexivity |].
    split; [now rewrite <- app_assoc |]. split; [reflexivity |].
    destruct (RegistryFacts.find_mark_urgent 3 (buttons w) Hheld)
      as [ws [Hfind [_ Hurgent]]].
    now exists ws.
  - reflexivity.
  - intros connection H.
    destruct (on_urgent_query_failure connection "abc" w H) as [e ->].
    reflexivity.
Qed.

Lemma urgent_resolution_witness :
  let w := mk_world [Registry.mk_workspace 3 true false] [] in
  buttons
    (snd (on_urgent (py := ascii_interpreter)
        (clients_connection [client_entry "0xabc" 3])
            (mk_event ["abc"]) w)) =
  [Registry.mk_workspace 3 true true].
Proof.
  cbv zeta.
  destruct (urgent_resolution (py := ascii_interpreter)
              (mk_world [Registry.mk_workspace 3 true false] []) eq_refl)
    as [[_ [_ [Hbuttons _]]] _].
  exact Hbuttons.
Defined.

(** ** Query failures outside the membership query *)

(** C1, evaluated on the code: only the membership query catches a failed
    query. When the transport fails or the reply does not decode, the
    urgent handler and the initial sync raise instead of returning; and an
    initial sync that meets an ill-shaped entry raises after it has already
    created and activated the entries before it. *)
Theorem query_failure_propagates {py : Interpreter} self address w :
  fst (on_urgent unreachable (mk_event [address]) w)
    = Raised ConnectionError /\
  fst (on_urgent (answering [("j/clients", Garbled)]) (mk_event [address]) w)
    = Raised JSONDecodeError /\
  fst (on_ready self unreachable w) = Raised ConnectionError /\
  fst (on_ready self (answering [("j/workspaces", Garbled)]) w)
    = Raised JSONDecodeError /\
  on_ready (mk_self "DP-1" false) truncated_workspaces_connection
    initial_world =
  (Raised KeyError,
   mk_world [Registry.mk_workspace 1 true false]
     [Sent "j/workspaces"; Sent "j/activeworkspace";
      Created 1; Activated 1]) /\
  fst (_get_workspace_monitor unreachable 1 w) = Returned None.
Proof.
  repeat split.
Qed.

(** ** Invariants of the Registry along a run *)

Section Keeps.

Context {py : Interpreter}.

(** A property of the Registry that its four transitions maintain. *)
Variable P : Registry.t -> Prop.
#[local] Abbreviation keeps := (maintains P).
Hypothesis P_create : forall id r, P r -> P (Registry.create id r).
Hypothesis P_destroy : forall id r, P r -> P (Registry.destroy id r).
Hypothesis P_activate : forall id r, P r -> P (Registry.activate id r).
Hypothesis P_mark_urgent : forall id r, P r -> P (Registry.mark_urgent id r).

Lemma keeps_pure {A} (c : M A) : pure c -> keeps c.
Proof. intros [o Ho] w Hw. now rewrite Ho. Qed.

Lemma keeps_bind {A B} (c : M A) (k : A -> M B) :
  keeps c -> (forall a, keeps (k a)) -> keeps (x <- c ;; k x).
Proof.
  intros Hc Hk w Hw. unfold bind. specialize (Hc w Hw).
  destruct (c w) as [[a | e] w']; simpl in *; [now apply Hk | assumption].
Qed.

Lemma keeps_try_except {A} (c h : M A) :
  keeps c -> keeps h -> keeps (try_except c h).
Proof.
  intros Hc Hh w Hw. unfold try_except. specialize (Hc w Hw).
  destruct (c w) as [[a | e] w']; simpl in *; [assumption | now apply Hh].
Qed.

Lemma keeps_emit e : keeps (emit e).
Proof. intros w Hw. exact Hw. Qed.

Lemma keeps_send_command connection cmd : keeps (send_command connection cmd).
Proof.
  apply keeps_bind; [apply keeps_emit | intros _].
  apply keeps_pure. destruct (connection cmd);
    [apply pure_ret | apply pure_raise].
Qed.

Lemma keeps_buttons_get id : keeps (buttons_get id).
Proof. intros w Hw. exact Hw. Qed.

Lemma keeps_workspace_created id : keeps (workspace_created id).
Proof. intros w Hw. simpl. now apply P_create. Qed.

Lemma keeps_workspace_destroyed id : keeps (workspace_destroyed id).
Proof. intros w Hw. simpl. now apply P_destroy. Qed.

Lemma keeps_workspace_activated id : keeps (workspace_activated id).
Proof. intros w Hw. simpl. now apply P_activate. Qed.

Lemma keeps_urgent id : keeps (urgent id).
Proof. intros w Hw. simpl. now apply P_mark_urgent. Qed.

Lemma pure_registry_key v : pure (registry_key v).
Proof. destruct v; simpl; solve [apply pure_ret | apply pure_raise]. Qed.

(** One step of a proof that a handler maintains [P]. *)
Ltac keeps_step :=
  first
    [ apply keeps_workspace_created
    | apply keeps_workspace_destroyed
    | apply keeps_workspace_activated
    | apply keeps_urgent
    | apply keeps_buttons_get
    | apply keeps_send_command
    | apply keeps_pure;
      solve [ apply pure_ret | apply pure_raise | apply pure_subscript
            | apply pure_get | apply pure_iter | apply pure_json_loads
            | apply pure_int_str | apply pure_int | apply pure_registry_key
            | apply pure_scan_workspaces | apply pure_clients_by_address ]
    | apply keeps_try_except
    | apply keeps_bind; [| intro]
    | match goal with
      | |- maintains _ (if ?b then _ else _) => destruct b
      end ].

Lemma keeps_get_workspace_monitor connection ws_id :
  keeps (_get_workspace_monitor connection ws_id).
Proof. unfold _get_workspace_monitor. repeat keeps_step. Qed.

Lemma keeps_is_mine self connection ws_id :
  keeps (_is_mine self connection ws_id).
Proof.
  unfold _is_mine. apply keeps_bind;
    [apply keeps_get_workspace_monitor | intro; keeps_step].
Qed.

Lemma keeps_on_ready_loop self active_workspace workspaces :
  keeps (on_ready_loop self active_workspace workspaces).
Proof.
  induction workspaces as [| ws rest IH]; simpl.
  - keeps_step.
  - apply keeps_bind; [keeps_step | intro m].
    apply keeps_bind; [| intros _; exact IH].
    repeat keeps_step.
Qed.

Lemma keeps_on_ready self connection : keeps (on_ready self connection).
Proof.
  unfold on_ready.
  do 6 (apply keeps_bind; [keeps_step | intro]).
  apply keeps_on_ready_loop.
Qed.

Lemma keeps_handler self connection s event :
  keeps (handler self connection s event).
Proof.
  destruct s; simpl;
    unfold on_workspace, on_monitor, on_create_workspace,
      on_destroy_workspace, on_move_workspace, on_urgent;
    (destruct (negb _); [keeps_step |]);
    repeat first [ apply keeps_is_mine | keeps_step ].
Qed.

Lemma keeps_deliver self d w :
  P (buttons w) -> P (buttons (deliver self d w)).
Proof.
  destruct d as [[connection s] event]. apply keeps_handler.
Qed.

Lemma keeps_run self at_start ds :
  P Registry.empty -> P (buttons (run self at_start ds)).
Proof.
  intro H0. unfold run.
  assert (Hstart : P (buttons (snd (on_ready self at_start initial_world))))
    by (apply keeps_on_ready; exact H0).
  revert Hstart.
  generalize (snd (on_ready self at_start initial_world)) as w.
  induction ds as [| d ds IH]; simpl; intros w Hw; [assumption |].
  apply IH. now apply keeps_deliver.
Qed.

End Keeps.

(** C8. At most one active workspace: along the life of a widget (the
    initial sync, then any deliveries of any events over any connection
    replies), after each delivery at most one workspace of the Registry is
    active; and an activation of a held id leaves every other workspace
    inactive. *)
Theorem at_most_one_active_invariant {py : Interpreter} self at_start ds :
  (forall k,
     Registry.at_most_one_active
       (buttons (run self at_start (firstn k ds)))) /\
  (forall r id w,
     Registry.holds r id = true ->
     In w (Registry.activate id r) ->
     Registry.ws_id w <> id ->
     Registry.ws_active w = false).
Proof.
  split.
  - intro k.
    apply (keeps_run Registry.consistent
             RegistryFacts.consistent_create
             RegistryFacts.consistent_destroy
             RegistryFacts.consistent_activate
             RegistryFacts.consistent_mark_urgent
             self at_start (firstn k ds) RegistryFacts.consistent_empty).
  - intros r id w Hheld Hin Hne.
    rewrite (RegistryFacts.activate_flags id r w Hheld Hin).
    now apply Z.eqb_neq.
Qed.

Lemma at_most_one_active_invariant_witness :
  let self := mk_self "DP-1" false in
  let ds := [(unreachable, focusedmonv2, mk_event ["DP-1"; "2"])] in
  buttons (run (py := ascii_interpreter) self same_monitor_connection []) =
    [Registry.mk_workspace 1 true false;
     Registry.mk_workspace 2 false false] /\
  buttons (run (py := ascii_interpreter) self same_monitor_connection ds) =
    [Registry.mk_workspace 1 false false;
     Registry.mk_workspace 2 true false] /\
  Registry.at_most_one_active (buttons (run (py := ascii_interpreter)
      self same_monitor_connection ds)).
Proof.
  cbv zeta.
  destruct (at_most_one_active_invariant (py := ascii_interpreter)
      (mk_self "DP-1" false)
              same_monitor_connection
              [(unreachable, focusedmonv2, mk_event ["DP-1"; "2"])])
    as [Hinv _].
  split; [reflexivity |]. split; [reflexivity |].
  exact (Hinv 1%nat).
Defined.

(** * Further properties of the handlers *)

(** A property of the result of [x <- c ;; k x], for a pure [c], follows
    from the property on both ways [c] can end. *)
Lemma bind_pure_cases {A B} (c : M A) (k : A -> M B)
    (Q : outcome B * World -> Prop) (w : World) :
  pure c ->
  (forall e, Q (Raised e, w)) ->
  (forall a, Q (k a w)) ->
  Q ((x <- c ;; k x) w).
Proof.
  intros [o Ho] Hraise Hret. unfold bind. rewrite Ho.
  destruct o as [a | e]; [apply Hret | apply Hraise].
Qed.

Lemma arity_passes event n :
  length (data event) = n -> negb (length (data event) =? n)%nat = false.
Proof. intros ->. now rewrite Nat.eqb_refl. Qed.

Lemma int_str_fails {py : Interpreter} s w :
  Py.int_of_string s = None -> Py.int_str s w = (Raised ValueError, w).
Proof. unfold Py.int_str. now intros ->. Qed.

(** X1. The membership query is safe on every connection: whatever the
    transport does and whatever document comes back, [_get_workspace_monitor]
    and [_is_mine] return (they never raise), their answer does not depend
    on the widget's state, the Registry is not touched and exactly one
    [j/workspaces] command is sent. *)
Theorem membership_query_is_safe self connection ws_id :
  (exists m, forall w,
     _get_workspace_monitor connection ws_id w =
     (Returned m, after w [Sent "j/workspaces"])) /\
  (exists mine, forall w,
     _is_mine self connection ws_id w =
     (Returned mine, after w [Sent "j/workspaces"])).
Proof.
  split.
  - exists (reported_monitor connection ws_id). intro w.
    apply get_workspace_monitor_run.
  - exists (reports_bound self connection ws_id). intro w.
    apply is_mine_run.
Qed.

(** X2. An id that [int] rejects: for the five signals that carry a
    workspace id, an event of correct arity whose id field is not a decimal
    integer makes the handler raise [ValueError] before anything else
    happens: no query is sent and the Registry is not touched. For
    [focusedmonv2] this holds whatever monitor the event names. *)
Theorem unparsable_id_raises {py : Interpreter} self connection s event w :
  s <> urgent_signal ->
  length (data event) = 2%nat ->
  Py.int_of_string (id_field s event) = None ->
  handler self connection s event w = (Raised ValueError, w).
Proof.
  intros Hs Hlen Hid.
  destruct s; simpl in *; try contradiction;
    unfold on_workspace, on_monitor, on_create_workspace,
      on_destroy_workspace, on_move_workspace;
    rewrite (arity_passes _ _ Hlen); unfold bind;
    rewrite (int_str_fails _ _ Hid); reflexivity.
Qed.

Lemma unparsable_id_raises_witness :
  let w := mk_world [Registry.mk_workspace 1 true false] [] in
  handler (py := ascii_interpreter)
      (mk_self "DP-1" false) unreachable focusedmonv2
    (mk_event ["DP-2"; "special:magic"]) w = (Raised ValueError, w).
Proof.
  cbv zeta.
  apply (unparsable_id_raises (py := ascii_interpreter)
      (mk_self "DP-1" false) unreachable focusedmonv2
           (mk_event ["DP-2"; "special:magic"])).
  - discriminate.
  - reflexivity.
  - reflexivity.
Defined.

(** X3. Workspace-changed is gated by the first entry for the id: for an
    event of correct arity for id [n], when the [j/workspaces] list has a
    first entry for [n] (every entry before it carries another id), the
    handler returns after that one query and asks the Registry to activate
    [n] exactly when that entry's monitor ([""] if it has none) is the bound
    name; later entries for [n] and the rest of the list play no part. When
    the query fails or every entry carries another id, the event is
    dropped. *)
Theorem workspace_changed_gated_by_first_entry {py : Interpreter} self connection event w n :
  length (data event) = 2%nat ->
  Py.int_of_string (nth 0 (data event) "") = Some n ->
  (forall pre e post,
     connection "j/workspaces" = Some (Document (JArr (pre ++ e :: post))) ->
     forallb (entry_has_other_id n) pre = true ->
     entry_has_id n e = true ->
     on_workspace self connection event w =
     (Returned tt,
      if Py.eq_str (monitor_or_default e) (_monitor_name self)
      then mk_world (Registry.activate n (buttons w))
                    (trace w ++ [Sent "j/workspaces"; Activated n])
      else after w [Sent "j/workspaces"])) /\
  (forall entries,
     connection "j/workspaces" = Some (Document (JArr entries)) ->
     forallb (entry_has_other_id n) entries = true ->
     on_workspace self connection event w =
     (Returned tt, after w [Sent "j/workspaces"])) /\
  (connection "j/workspaces" = None \/
   connection "j/workspaces" = Some Garbled ->
   on_workspace self connection event w =
   (Returned tt, after w [Sent "j/workspaces"])).
Proof.
  intros Hlen Hid.
  rewrite (on_workspace_run _ _ _ _ _ Hlen Hid). unfold reports_bound.
  split; [| split].
  - intros pre e post Hc Hpre He.
    now rewrite (reported_monitor_first_match _ _ _ _ _ Hc Hpre He).
  - intros entries Hc Hall.
    now rewrite (reported_monitor_no_match _ _ _ Hc Hall).
  - intro H. now rewrite (reported_monitor_failure _ _ H).
Qed.

Lemma workspace_changed_gated_by_first_entry_witness :
  let connection :=
    answering [("j/workspaces",
                Document (JArr [workspace_entry 1 "DP-2";
                                workspace_entry 4 "DP-1";
                                workspace_entry 4 "DP-2"]))] in
  on_workspace (py := ascii_interpreter)
      (mk_self "DP-1" false) connection (mk_event ["4"; "four"])
    (mk_world [Registry.mk_workspace 4 false false] []) =
  (Returned tt,
   mk_world [Registry.mk_workspace 4 true false]
            [Sent "j/workspaces"; Activated 4]).
Proof.
  cbv zeta.
  destruct (workspace_changed_gated_by_first_entry (py := ascii_interpreter)
      (mk_self "DP-1" false)
              (answering [("j/workspaces",
                           Document (JArr [workspace_entry 1 "DP-2";
                                           workspace_entry 4 "DP-1";
                                           workspace_entry 4 "DP-2"]))])
              (mk_event ["4"; "four"])
              (mk_world [Registry.mk_workspace 4 false false] []) 4
              eq_refl eq_refl) as [Hfirst _].
  exact (Hfirst [workspace_entry 1 "DP-2"] (workspace_entry 4 "DP-1")
           [workspace_entry 4 "DP-2"] eq_refl eq_refl eq_refl).
Defined.

(** Sending a command, then going on. *)
Lemma bind_send_command {B} connection cmd (k : reply -> M B) w :
  (r <- send_command connection cmd ;; k r) w =
  match connection cmd with
  | Some r => k r (after w [Sent cmd])
  | None => (Raised ConnectionError, after w [Sent cmd])
  end.
Proof.
  unfold send_command, bind, emit, after.
  destruct (connection cmd); reflexivity.
Qed.

(** What [on_urgent] adds to the trace, on every input. *)
Lemma on_urgent_trace {py : Interpreter} connection event w :
  let t := trace (snd (on_urgent connection event w)) in
  t = trace w \/
  t = trace w ++ [Sent "j/clients"] \/
  exists k, t = trace w ++ [Sent "j/clients"; MarkedUrgent k].
Proof.
  cbv zeta. unfold on_urgent.
  destruct (negb (length (data event) =? 1)%nat); [now left |].
  rewrite bind_send_command.
  destruct (connection "j/clients") as [r |]; [| right; left; reflexivity].
  pose (Q := fun res : outcome unit * World =>
               trace (snd res) = trace w \/
               trace (snd res) = trace w ++ [Sent "j/clients"] \/
               exists k,
                 trace (snd res) = trace w ++ [Sent "j/clients"; MarkedUrgent k]).
  match goal with |- context [snd ?t] => change (Q t) end.
  apply (bind_pure_cases _ _ Q);
    [apply pure_json_loads | intro; right; left; reflexivity
    | intro clients; cbv beta].
  apply (bind_pure_cases _ _ Q);
    [apply pure_iter | intro; right; left; reflexivity
    | intro items; cbv beta].
  apply (bind_pure_cases _ _ Q);
    [apply pure_clients_by_address | intro; right; left; reflexivity
    | intro clients_map; cbv beta].
  apply (bind_pure_cases _ _ Q);
    [apply pure_get | intro; right; left; reflexivity
    | intro raw_workspace; cbv beta].
  destruct (negb (Py.truthy raw_workspace)); [right; left; reflexivity |].
  apply (bind_pure_cases _ _ Q);
    [apply pure_subscript | intro; right; left; reflexivity
    | intro i; cbv beta].
  apply (bind_pure_cases _ _ Q);
    [apply pure_int | intro; right; left; reflexivity
    | intro ws_id; cbv beta].
  unfold Q, bind, buttons_get, after.
  destruct (Registry.holds _ ws_id); simpl.
  - right; right. exists ws_id. now rewrite <- app_assoc.
  - right; left; reflexivity.
Qed.

(** X4. The footprint of a delivery: whatever the event, the connection's
    answer and the widget's state, and whether the handler returns or
    raises, a handler only appends to what the widget did; it sends at most
    one command, which is the query of its signal ([j/workspaces] for
    workspace-changed and workspace-created, [j/clients] for urgent, none
    for the others) and never a dispatch command; and it requests at most
    one Registry transition, of the kind its signal allows. *)
Theorem handler_footprint {py : Interpreter} self connection s event w :
  exists es,
    trace (snd (handler self connection s event w)) = trace w ++ es /\
    (sent es = [] \/ sent es = query_of s) /\
    (length (transitions es) <= 1)%nat /\
    forallb (may_request s) (transitions es) = true.
Proof.
  assert (Hnone : exists es : list effect,
             trace w = trace w ++ es /\
             (sent es = [] \/ sent es = query_of s) /\
             (length (transitions es) <= 1)%nat /\
             forallb (may_request s) (transitions es) = true).
  { exists []. rewrite app_nil_r. simpl. repeat split; auto. }
  destruct s; simpl handler.
  - (* workspacev2 *)
    unfold on_workspace.
    destruct (Nat.eqb_spec (length (data event)) 2) as [Hlen | _]; simpl;
      [| exact Hnone].
    destruct (Py.int_of_string (nth 0 (data event) "")) as [n |] eqn:Hid.
    + pose proof (on_workspace_run self connection event w n Hlen Hid) as H.
      unfold on_workspace in H. rewrite (arity_passes _ _ Hlen) in H.
      rewrite H. destruct (reports_bound self connection n); simpl.
      * exists [Sent "j/workspaces"; Activated n]. simpl. auto.
      * exists [Sent "j/workspaces"]. simpl. auto.
    + unfold bind. rewrite (int_str_fails _ _ Hid). exact Hnone.
  - (* focusedmonv2 *)
    unfold on_monitor.
    destruct (Nat.eqb_spec (length (data event)) 2) as [Hlen | _]; simpl;
      [| exact Hnone].
    unfold bind, Py.int_str.
    destruct (Py.int_of_string (nth 1 (data event) "")) as [n |]; simpl;
      [| exact Hnone].
    destruct (String.eqb _ _); simpl; [| exact Hnone].
    exists [Activated n]. simpl. auto.
  - (* createworkspacev2 *)
    unfold on_create_workspace.
    destruct (Nat.eqb_spec (length (data event)) 2) as [Hlen | _]; simpl;
      [| exact Hnone].
    destruct (Py.int_of_string (nth 0 (data event) "")) as [n |] eqn:Hid.
    + pose proof (on_create_workspace_run self connection event w n Hlen Hid)
        as H.
      unfold on_create_workspace in H. rewrite (arity_passes _ _ Hlen) in H.
      rewrite H. destruct (reports_bound self connection n); simpl.
      * exists [Sent "j/workspaces"; Created n]. simpl. auto.
      * exists [Sent "j/workspaces"]. simpl. auto.
    + unfold bind. rewrite (int_str_fails _ _ Hid). exact Hnone.
  - (* destroyworkspacev2 *)
    unfold on_destroy_workspace.
    destruct (Nat.eqb_spec (length (data event)) 2) as [Hlen | _]; simpl;
      [| exact Hnone].
    unfold bind, Py.int_str, buttons_get.
    destruct (Py.int_of_string (nth 0 (data event) "")) as [n |]; simpl;
      [| exact Hnone].
    destruct (Registry.holds (buttons w) n); simpl; [| exact Hnone].
    exists [Destroyed n]. simpl. auto.
  - (* moveworkspacev2 *)
    unfold on_move_workspace.
    destruct (Nat.eqb_spec (length (data event)) 2) as [Hlen | _]; simpl;
      [| exact Hnone].
    unfold bind, Py.int_str, buttons_get.
    destruct (Py.int_of_string (nth 0 (data event) "")) as [n |]; simpl;
      [| exact Hnone].
    destruct (String.eqb _ _); simpl.
    + exists [Created n]. simpl. auto.
    + destruct (Registry.holds (buttons w) n); simpl; [| exact Hnone].
      exists [Destroyed n]. simpl. auto.
  - (* urgent *)
    destruct (on_urgent_trace connection event w) as [H | [H | [k H]]];
      rewrite H.
    + exact Hnone.
    + exists [Sent "j/clients"]. simpl. auto.
    + exists [Sent "j/clients"; MarkedUrgent k]. simpl. auto.
Qed.

(** ** Urgent events and the client list *)

Lemma dict_get_set_str d k v k' dflt :
  string_keys d ->
  Py.dict_get (Py.dict_set d (JStr k) v) (JStr k') dflt =
  if String.eqb k k' then v else Py.dict_get d (JStr k') dflt.
Proof.
  induction d as [| [key val] d IH]; intro Hd; simpl.
  - reflexivity.
  - inversion Hd as [| kv d' [a Ha] Hd']; subst. simpl in Ha. subst key.
    simpl. destruct (String.eqb_spec a k) as [-> | Hak]; simpl.
    + destruct (String.eqb k k'); reflexivity.
    + rewrite (IH Hd').
      destruct (String.eqb_spec a k') as [-> | Hak'];
        destruct (String.eqb_spec k k') as [-> | Hkk']; try reflexivity.
      now contradiction Hak.
Qed.

Lemma string_keys_set d k v :
  string_keys d -> string_keys (Py.dict_set d (JStr k) v).
Proof.
  induction d as [| [key val] d IH]; intro Hd; simpl.
  - constructor; [now exists k | constructor].
  - inversion Hd as [| kv d' [a Ha] Hd']; subst. simpl in Ha. subst key.
    simpl. destruct (String.eqb a k).
    + constructor; [now exists a | assumption].
    + constructor; [now exists a | now apply IH].
Qed.

Lemma find_over_app {A} (p : A -> bool) (l1 l2 : list A) :
  List.find p (l1 ++ l2) =
  match List.find p l1 with
  | Some x => Some x
  | None => List.find p l2
  end.
Proof.
  induction l1 as [| x l1 IH]; simpl; [reflexivity |].
  destruct (p x); [reflexivity | exact IH].
Qed.

Lemma last_client_cons c cs k :
  last_client (c :: cs) k =
  match last_client cs k with
  | Some x => Some x
  | None => if has_address k c then Some c else None
  end.
Proof.
  unfold last_client. simpl. rewrite find_over_app. simpl.
  destruct (List.find (has_address k) (rev cs)); [reflexivity |].
  destruct (has_address k c); reflexivity.
Qed.

(** On a list of addressed clients the comprehension does not raise, and a
    lookup in its result finds the last client with the address. *)
Lemma clients_by_address_run cs :
  forall acc w,
    addressed cs -> string_keys acc ->
    exists d,
      clients_by_address cs acc w = (Returned d, w) /\
      forall k dflt,
        Py.dict_get d (JStr k) dflt =
        match last_client cs k with
        | Some c => c
        | None => Py.dict_get acc (JStr k) dflt
        end.
Proof.
  induction cs as [| c cs IH]; intros acc w Hcs Hacc.
  - exists acc. split; reflexivity.
  - inversion Hcs as [| c' cs' Hc Hcs']; subst.
    destruct c as [| b | z | s | l | kvs]; simpl in Hc; try easy.
    destruct (Py.assoc "address" kvs) as [[| b | z | a | l | kvs'] |] eqn:Ha;
      try easy.
    destruct (IH (Py.dict_set acc (JStr a) (JObj kvs)) w Hcs'
                (string_keys_set _ _ _ Hacc)) as [d [Hrun Hget]].
    exists d. split.
    + simpl. unfold bind. simpl. rewrite Ha. simpl. exact Hrun.
    + intros k dflt. rewrite Hget, last_client_cons.
      destruct (last_client cs k); [reflexivity |].
      rewrite (dict_get_set_str _ _ _ _ _ Hacc).
      unfold has_address. simpl. rewrite Ha.
      destruct (String.eqb a k); reflexivity.
Qed.

(** A client without an [address] key stops the comprehension. *)
Lemma clients_by_address_key_error pre kvs post :
  forall acc w,
    addressed pre -> Py.assoc "address" kvs = None ->
    clients_by_address (pre ++ JObj kvs :: post) acc w = (Raised KeyError, w).
Proof.
  induction pre as [| c pre IH]; intros acc w Hpre Hbad; simpl.
  - unfold bind. simpl. now rewrite Hbad.
  - inversion Hpre as [| c' cs' Hc Hpre']; subst.
    destruct c as [| b | z | s | l | ckvs]; simpl in Hc; try easy.
    destruct (Py.assoc "address" ckvs) as [[| b | z | a | l | kvs'] |] eqn:Ha;
      try easy.
    unfold bind. simpl. rewrite Ha. simpl. now apply IH.
Qed.

(** The client [on_urgent] settles on, for the event's address. *)
Lemma on_urgent_lookup {py : Interpreter} connection event clients w :
  length (data event) = 1%nat ->
  connection "j/clients" = Some (Document (JArr clients)) ->
  addressed clients ->
  on_urgent connection event w =
  (raw_workspace <-
     Py.get
       match last_client clients ("0x" ++ nth 0 (data event) "") with
       | Some c => c
       | None => JObj []
       end "workspace" JNull ;;
   if negb (Py.truthy raw_workspace) then ret tt else
   i <- Py.subscript raw_workspace "id" ;;
   ws_id <- Py.int i ;;
   held <- buttons_get ws_id ;;
   if held then urgent ws_id else ret tt)
    (after w [Sent "j/clients"]).
Proof.
  intros Hlen Hc Hcs. unfold on_urgent.
  rewrite (arity_passes _ _ Hlen), bind_send_command, Hc.
  unfold bind at 1. simpl json_loads. unfold ret at 1.
  unfold bind at 1. simpl Py.iter. unfold ret at 1.
  destruct (clients_by_address_run clients [] (after w [Sent "j/clients"])
              Hcs (Forall_nil _)) as [d [Hrun Hget]].
  unfold bind at 1. rewrite Hrun.
  rewrite Hget. simpl Py.dict_get.
  reflexivity.
Qed.

Lemma last_client_addressed clients k c :
  last_client clients k = Some c -> exists kvs, c = JObj kvs.
Proof.
  unfold last_client. intro H. apply find_some in H as [_ H].
  unfold has_address, client_address in H.
  destruct c as [| b | z | s | l | kvs]; try discriminate. now exists kvs.
Qed.

Lemma get_workspace_of_client kvs w :
  Py.get (JObj kvs) "workspace" JNull w =
  (Returned (client_workspace (JObj kvs)), w).
Proof. simpl. destruct (Py.assoc "workspace" kvs); reflexivity. Qed.

(** X5. Urgent resolution goes through the last client listed under the
    address: for an urgent event of correct arity, when every client of the
    [j/clients] list carries a string address and the last one whose address
    is "0x" followed by the event's field has a [workspace] object with the
    integer id [n], the handler returns after that one query; it asks the
    Registry to mark [n] urgent if the Registry holds [n], and asks nothing
    otherwise. Earlier clients under the same address are overridden. *)
Theorem urgent_resolves_last_client {py : Interpreter} connection event clients c wkvs n w :
  length (data event) = 1%nat ->
  connection "j/clients" = Some (Document (JArr clients)) ->
  addressed clients ->
  last_client clients ("0x" ++ nth 0 (data event) "") = Some c ->
  client_workspace c = JObj wkvs ->
  Py.assoc "id" wkvs = Some (JNum n) ->
  on_urgent connection event w =
  (Returned tt,
   if Registry.holds (buttons w) n
   then mk_world (Registry.mark_urgent n (buttons w))
                 (trace w ++ [Sent "j/clients"; MarkedUrgent n])
   else after w [Sent "j/clients"]).
Proof.
  intros Hlen Hc Hcs Hlast Hws Hid.
  rewrite (on_urgent_lookup _ _ _ _ Hlen Hc Hcs), Hlast.
  destruct (last_client_addressed _ _ _ Hlast) as [kvs ->].
  unfold bind at 1. rewrite get_workspace_of_client, Hws.
  destruct wkvs as [| kv wkvs]; [discriminate |].
  unfold bind, buttons_get, after; simpl Py.truthy; cbv iota.
  simpl negb. cbv iota. unfold Py.subscript. rewrite Hid. simpl.
  destruct (Registry.holds (buttons w) n); simpl; [| reflexivity].
  unfold urgent, bind, emit, update_buttons; simpl.
  now rewrite <- app_assoc.
Qed.

Lemma urgent_resolves_last_client_witness :
  on_urgent (py := ascii_interpreter)
    (clients_connection [client_entry "0xabc" 2; client_entry "0xdef" 9;
                         client_entry "0xabc" 3])
    (mk_event ["abc"])
    (mk_world [Registry.mk_workspace 2 false false;
               Registry.mk_workspace 3 false false] []) =
  (Returned tt,
   mk_world [Registry.mk_workspace 2 false false;
             Registry.mk_workspace 3 false true]
            [Sent "j/clients"; MarkedUrgent 3]).
Proof.
  apply (urgent_resolves_last_client (py := ascii_interpreter)
           (clients_connection [client_entry "0xabc" 2; client_entry "0xdef" 9;
                                client_entry "0xabc" 3])
           (mk_event ["abc"])
           [client_entry "0xabc" 2; client_entry "0xdef" 9;
            client_entry "0xabc" 3]
           (client_entry "0xabc" 3) [("id", JNum 3)] 3).
  - reflexivity.
  - reflexivity.
  - repeat constructor; discriminate.
  - reflexivity.
  - reflexivity.
  - reflexivity.
Defined.

(** X6. Urgent events that resolve to nothing are dropped silently: for an
    urgent event of correct arity and a [j/clients] list of addressed
    clients, when no client carries the address "0x" followed by the event's
    field, or the last one that does has no [workspace] field or a falsy one
    ([null], an empty object), the handler returns after its one query
    without asking anything of the Registry. *)
Theorem urgent_dropped_silently {py : Interpreter} connection event clients w :
  length (data event) = 1%nat ->
  connection "j/clients" = Some (Document (JArr clients)) ->
  addressed clients ->
  (last_client clients ("0x" ++ nth 0 (data event) "") = None \/
   exists c,
     last_client clients ("0x" ++ nth 0 (data event) "") = Some c /\
     Py.truthy (client_workspace c) = false) ->
  on_urgent connection event w = (Returned tt, after w [Sent "j/clients"]).
Proof.
  intros Hlen Hc Hcs Hdrop.
  rewrite (on_urgent_lookup _ _ _ _ Hlen Hc Hcs).
  destruct Hdrop as [-> | [c [Hlast Hfalsy]]].
  - reflexivity.
  - rewrite Hlast. destruct (last_client_addressed _ _ _ Hlast) as [kvs ->].
    unfold bind at 1. rewrite get_workspace_of_client, Hfalsy. reflexivity.
Qed.

Lemma urgent_dropped_silently_witness :
  let w := mk_world [Registry.mk_workspace 3 false false] [] in
  on_urgent (py := ascii_interpreter)
    (clients_connection
       [client_entry "0xdef" 3;
        JObj [("address", JStr "0xabc"); ("workspace", JNull)]])
    (mk_event ["abc"]) w =
  (Returned tt, after w [Sent "j/clients"])
  /\
  on_urgent (py := ascii_interpreter)
      (clients_connection [client_entry "0xdef" 3])
    (mk_event ["abc"]) w =
  (Returned tt, after w [Sent "j/clients"]).
Proof.
  cbv zeta. split.
  - apply (urgent_dropped_silently (py := ascii_interpreter)
             (clients_connection
                [client_entry "0xdef" 3;
                 JObj [("address", JStr "0xabc"); ("workspace", JNull)]])
             (mk_event ["abc"])
             [client_entry "0xdef" 3;
              JObj [("address", JStr "0xabc"); ("workspace", JNull)]]).
    + reflexivity.
    + reflexivity.
    + repeat constructor; discriminate.
    + right. eexists. split; reflexivity.
  - apply (urgent_dropped_silently (py := ascii_interpreter)
             (clients_connection [client_entry "0xdef" 3])
             (mk_event ["abc"]) [client_entry "0xdef" 3]).
    + reflexivity.
    + reflexivity.
    + repeat constructor; discriminate.
    + left. reflexivity.
Defined.

(** X7. One client without an address breaks urgent resolution for every
    address: for an urgent event of correct arity, when the [j/clients] list
    contains a client object with no [address] key (the clients before it
    being addressed), the handler raises [KeyError] after its query and asks
    nothing of the Registry, also when the client the event is about is in
    the list. *)
Theorem urgent_raises_on_client_without_address {py : Interpreter}
    connection event pre kvs post w :
  length (data event) = 1%nat ->
  connection "j/clients" =
    Some (Document (JArr (pre ++ JObj kvs :: post))) ->
  addressed pre ->
  Py.assoc "address" kvs = None ->
  on_urgent connection event w = (Raised KeyError, after w [Sent "j/clients"]).
Proof.
  intros Hlen Hc Hpre Hbad. unfold on_urgent.
  rewrite (arity_passes _ _ Hlen), bind_send_command, Hc.
  unfold bind at 1. simpl json_loads. unfold ret at 1.
  unfold bind at 1. simpl Py.iter. unfold ret at 1.
  unfold bind at 1.
  now rewrite (clients_by_address_key_error _ _ _ _ _ Hpre Hbad).
Qed.

Lemma urgent_raises_on_client_without_address_witness :
  let w := mk_world [Registry.mk_workspace 3 false false] [] in
  on_urgent (py := ascii_interpreter)
    (clients_connection
       [client_entry "0xabc" 3; JObj [("workspace", JNull)]])
    (mk_event ["abc"]) w =
  (Raised KeyError, after w [Sent "j/clients"]).
Proof.
  cbv zeta.
  apply (urgent_raises_on_client_without_address (py := ascii_interpreter)
           (clients_connection
              [client_entry "0xabc" 3; JObj [("workspace", JNull)]])
           (mk_event ["abc"])
           [client_entry "0xabc" 3] [("workspace", JNull)] []).
  - reflexivity.
  - reflexivity.
  - repeat constructor; discriminate.
  - reflexivity.
Defined.

(** ** The initial sync on any workspace list *)

Lemma sync_entry_fields e :
  sync_entry e ->
  exists kvs m k,
    e = JObj kvs /\ Py.assoc "monitor" kvs = Some m /\
    Py.assoc "id" kvs = Some (JNum k).
Proof.
  intros [Hm Hk]. destruct e as [| b | z | s | l | kvs]; simpl in *; try easy.
  destruct (Py.assoc "monitor" kvs) as [m |] eqn:Em; [| easy].
  destruct (Py.assoc "id" kvs) as [[| b | k | s | l | kvs'] |] eqn:Ek;
    try easy.
  exists kvs, m, k. repeat split; assumption.
Qed.

(** The loop of the initial sync returns on well-formed entries, and asks
    of the Registry what [sync_calls] lists, entry after entry. *)
Lemma on_ready_loop_run self active entries :
  Forall sync_entry entries ->
  forall w, exists w',
    on_ready_loop self active entries w = (Returned tt, w') /\
    trace w' =
    trace w ++ flat_map (sync_calls (_monitor_name self) active) entries.
Proof.
  induction 1 as [| e entries He _ IH]; intro w.
  - exists w. simpl. now rewrite app_nil_r.
  - destruct (sync_entry_fields e He) as [kvs [m [k [-> [Hm Hk]]]]].
    cbn [on_ready_loop flat_map].
    unfold sync_calls at 1, entry_monitor, entry_id, Py.subscript.
    rewrite Hm, Hk.
    unfold bind at 1. unfold ret at 1.
    destruct (Py.eq_str m (_monitor_name self)).
    + unfold bind, ret, registry_key, workspace_created, workspace_activated,
        emit, update_buttons; simpl.
      destruct (Py.eq_int active k); simpl;
        match goal with
        | |- context [on_ready_loop _ _ _ ?w1] =>
            destruct (IH w1) as [w' [Hrun Htrace]]
        end;
        exists w'; (split; [exact Hrun |]);
        rewrite Htrace; simpl; now rewrite <- !app_assoc.
    + destruct (IH w) as [w' [Hrun Htrace]].
      exists w'. split; [exact Hrun | exact Htrace].
Qed.

(** With both queries answered, the initial sync comes down to its loop. *)
Lemma on_ready_run self connection entries akvs active w :
  connection "j/workspaces" = Some (Document (JArr entries)) ->
  connection "j/activeworkspace" = Some (Document (JObj akvs)) ->
  Py.assoc "id" akvs = Some active ->
  on_ready self connection w =
  on_ready_loop self active entries
    (after w [Sent "j/workspaces"; Sent "j/activeworkspace"]).
Proof.
  intros Hws Hactive Hid. unfold on_ready.
  rewrite bind_send_command, Hws.
  unfold bind at 1. simpl json_loads. unfold ret at 1.
  rewrite bind_send_command, Hactive.
  unfold bind at 1. simpl json_loads. unfold ret at 1.
  unfold bind at 1. simpl Py.subscript. rewrite Hid. unfold ret at 1.
  unfold bind at 1. simpl Py.iter. unfold ret at 1.
  unfold after. simpl. now rewrite <- app_assoc.
Qed.

(** X8. The initial sync on a well-formed reply: when [j/workspaces] answers
    a list whose entries all have a [monitor] field and an integer id, and
    [j/activeworkspace] answers an object with an [id], [on_ready] returns;
    it sends those two queries in that order, then goes through the list in
    order and asks the Registry to create exactly the workspaces whose
    monitor is the bound name, activating a workspace right after its
    creation when its id is the active one. It destroys nothing, and it
    activates nothing on another monitor, the active workspace included. *)
Theorem initial_sync_calls self connection entries akvs active w :
  connection "j/workspaces" = Some (Document (JArr entries)) ->
  connection "j/activeworkspace" = Some (Document (JObj akvs)) ->
  Py.assoc "id" akvs = Some active ->
  Forall sync_entry entries ->
  fst (on_ready self connection w) = Returned tt /\
  trace (snd (on_ready self connection w)) =
    trace w ++ [Sent "j/workspaces"; Sent "j/activeworkspace"]
            ++ flat_map (sync_calls (_monitor_name self) active) entries.
Proof.
  intros Hws Hactive Hid Hentries.
  rewrite (on_ready_run _ _ _ _ _ _ Hws Hactive Hid).
  destruct (on_ready_loop_run self active entries Hentries
              (after w [Sent "j/workspaces"; Sent "j/activeworkspace"]))
    as [w' [Hrun Htrace]].
  rewrite Hrun. simpl. split; [reflexivity |].
  rewrite Htrace. simpl. now rewrite <- app_assoc.
Qed.

Lemma initial_sync_calls_witness :
  trace
    (snd (on_ready (mk_self "DP-2" false) initial_sync_connection
            initial_world)) =
  [Sent "j/workspaces"; Sent "j/activeworkspace"; Created 2].
Proof.
  destruct (initial_sync_calls (mk_self "DP-2" false) initial_sync_connection
              [workspace_entry 1 "DP-1"; workspace_entry 2 "DP-2"]
              [("id", JNum 1)] (JNum 1) initial_world
              eq_refl eq_refl eq_refl) as [_ Htrace].
  - repeat constructor; discriminate.
  - exact Htrace.
Defined.

(** ** A widget without a monitor name *)

Lemma on_ready_loop_unbound empty_scroll active entries w :
  Forall on_named_monitor entries ->
  on_ready_loop (mk_self "" empty_scroll) active entries w = (Returned tt, w).
Proof.
  induction 1 as [| e entries [m [Hm Hne]] _ IH]; simpl; [reflexivity |].
  destruct e as [| b | z | s | l | kvs]; simpl in Hm; try discriminate.
  unfold bind at 1. simpl. rewrite Hm. simpl.
  destruct (String.eqb_spec m "") as [-> | _]; [now contradiction Hne |].
  unfold bind at 1. unfold ret at 1. exact IH.
Qed.

Lemma scan_workspaces_named n entries w :
  Forall on_named_monitor entries ->
  exists o,
    scan_workspaces n entries w = (o, w) /\
    forall v, o = Returned (Some v) -> Py.eq_str v "" = false.
Proof.
  induction 1 as [| e entries [m [Hm Hne]] _ IH]; simpl.
  - exists (Returned None). split; [reflexivity | discriminate].
  - destruct e as [| b | z | s | l | kvs]; simpl in Hm; try discriminate.
    unfold bind at 1. simpl.
    destruct (Py.assoc "id" kvs) as [i |]; simpl.
    + destruct (Py.eq_int i n).
      * unfold bind. simpl. rewrite Hm. simpl.
        eexists. split; [reflexivity |]. intros v [= <-]. simpl.
        now apply String.eqb_neq.
      * exact IH.
    + eexists. split; [reflexivity | discriminate].
Qed.

Lemma reports_bound_unbound empty_scroll connection entries n :
  connection "j/workspaces" = Some (Document (JArr entries)) ->
  Forall on_named_monitor entries ->
  reports_bound (mk_self "" empty_scroll) connection n = false.
Proof.
  intros Hc Hnamed.
  unfold reports_bound, reported_monitor, _get_workspace_monitor,
    try_except, bind, send_command, emit; simpl.
  rewrite Hc; simpl.
  destruct (scan_workspaces_named n entries
              (mk_world Registry.empty [Sent "j/workspaces"]) Hnamed)
    as [o [Hrun Hv]].
  unfold initial_world. simpl. rewrite Hrun.
  destruct o as [[v |] | e]; simpl; try reflexivity.
  now apply Hv.
Qed.

(** X9. A widget built without a monitor name claims nothing on a named
    setup: [WorkspacesWidget] given no name (or the empty one) binds to the
    empty string. When [j/workspaces] answers a list whose entries all
    report a non-empty string as monitor: its initial sync, given that
    [j/activeworkspace] answers an object with an [id], returns after its
    two queries and asks nothing of the Registry; every workspace-changed
    and workspace-created event of two fields whose id field [int] converts
    is dropped after its membership query; and a monitor-focus event whose
    monitor field is not empty leaves the widget as it was. *)
Theorem unnamed_widget_claims_nothing {py : Interpreter}
    monitor_name connection entries w :
  monitor_name = None \/ monitor_name = Some "" ->
  connection "j/workspaces" = Some (Document (JArr entries)) ->
  Forall on_named_monitor entries ->
  let self := WorkspacesWidget monitor_name in
  _monitor_name self = "" /\
  (forall akvs active,
     connection "j/activeworkspace" = Some (Document (JObj akvs)) ->
     Py.assoc "id" akvs = Some active ->
     on_ready self connection w =
     (Returned tt, after w [Sent "j/workspaces"; Sent "j/activeworkspace"])) /\
  (forall event n,
     length (data event) = 2%nat ->
     Py.int_of_string (nth 0 (data event) "") = Some n ->
     on_workspace self connection event w =
       (Returned tt, after w [Sent "j/workspaces"]) /\
     on_create_workspace self connection event w =
       (Returned tt, after w [Sent "j/workspaces"])) /\
  (forall event,
     nth 0 (data event) "" <> "" ->
     snd (on_monitor self event w) = w).
Proof.
  intros Hname Hws Hnamed self.
  assert (Hself : self = mk_self "" false)
    by (subst self; destruct Hname as [-> | ->]; reflexivity).
  rewrite Hself. clear Hself self.
  split; [reflexivity |]. split; [| split].
  - intros akvs active Hactive Hid.
    rewrite (on_ready_run _ _ _ _ _ _ Hws Hactive Hid).
    apply (on_ready_loop_unbound _ _ _ _ Hnamed).
  - intros event n Hlen Hn.
    rewrite (on_workspace_run _ _ _ _ _ Hlen Hn),
      (on_create_workspace_run _ _ _ _ _ Hlen Hn).
    rewrite (reports_bound_unbound _ _ _ _ Hws Hnamed). split; reflexivity.
  - intros event Hmon. unfold on_monitor.
    destruct (negb (length (data event) =? 2)%nat); [reflexivity |].
    unfold bind, Py.int_str.
    destruct (Py.int_of_string (nth 1 (data event) "")); simpl;
      [| reflexivity].
    destruct (String.eqb_spec (nth 0 (data event) "") "") as [E | _];
      [now contradiction Hmon | reflexivity].
Qed.

Lemma unnamed_widget_claims_nothing_witness :
  on_ready (WorkspacesWidget None) initial_sync_connection initial_world =
  (Returned tt,
   mk_world [] [Sent "j/workspaces"; Sent "j/activeworkspace"])
  /\
  on_create_workspace (py := ascii_interpreter) (WorkspacesWidget None)
    initial_sync_connection (mk_event ["1"; "one"]) initial_world =
  (Returned tt, mk_world [] [Sent "j/workspaces"])
  /\
  snd (on_monitor (py := ascii_interpreter) (WorkspacesWidget None)
         (mk_event ["DP-1"; "1"]) initial_world) = initial_world.
Proof.
  assert (Hnamed : Forall on_named_monitor
                     [workspace_entry 1 "DP-1"; workspace_entry 2 "DP-2"]).
  { constructor; [exists "DP-1"; split; [reflexivity | discriminate] |].
    constructor; [exists "DP-2"; split; [reflexivity | discriminate] |].
    constructor. }
  destruct (unnamed_widget_claims_nothing (py := ascii_interpreter) None
              initial_sync_connection
              [workspace_entry 1 "DP-1"; workspace_entry 2 "DP-2"]
              initial_world (or_introl eq_refl) eq_refl Hnamed)
    as [_ [Hready [Hevents Hfocus]]].
  split; [exact (Hready [("id", JNum 1)] (JNum 1) eq_refl eq_refl) |].
  split.
  - exact (proj2 (Hevents (mk_event ["1"; "one"]) 1 eq_refl eq_refl)).
  - apply (Hfocus (mk_event ["DP-1"; "1"])). discriminate.
Defined.

(** * The bars *)

Lemma setitem_append d i v :
  Forall (fun k => (k < i)%nat) (map fst d) ->
  setitem d i v = d ++ [(i, v)].
Proof.
  induction d as [| [k x] d IH]; simpl; intro H; [reflexivity |].
  inversion H as [| k' ks Hk Hd]; subst.
  destruct (Nat.eqb_spec k i) as [-> | _]; [lia |].
  now rewrite IH.
Qed.


















Lemma described_fields hm :
  monitor_fields hm <> None ->
  exists kvs hx hy name,
    hm = JObj kvs /\ Py.assoc "x" kvs = Some hx /\
    Py.assoc "y" kvs = Some hy /\ Py.assoc "name" kvs = Some name.
Proof.
  destruct hm as [| b | z | s | l | kvs]; simpl; try easy.
  destruct (Py.assoc "x" kvs) as [hx |] eqn:Ex; [| easy].
  destruct (Py.assoc "y" kvs) as [hy |] eqn:Ey; [| easy].
  destruct (Py.assoc "name" kvs) as [name |] eqn:En; [| easy].
  intros _. exists kvs, hx, hy, name. repeat split; assumption.
Qed.

(** On described monitors the inner loop returns, and gives GDK monitor [i]
    the name of the first Hyprland monitor at its position, if any. *)
Lemma match_position_run i geo hms :
  described hms ->
  forall d w,
    match_position i geo hms d w =
    (Returned match name_at hms geo with
              | Some name => setitem d i name
              | None => d
              end, w).
Proof.
  induction 1 as [| hm hms Hhm _ IH]; intros d w; [reflexivity |].
  destruct (described_fields hm Hhm)
    as [kvs [hx [hy [name [-> [Hx [Hy Hn]]]]]]].
  cbn [match_position]. unfold Py.subscript. rewrite Hx, Hy, Hn.
  unfold name_at. cbn [List.find].
  unfold monitor_at at 1, monitor_fields. rewrite Hx, Hy, Hn.
  unfold bind at 1. unfold ret at 1.
  destruct (Py.eq_int hx (geo_x geo)); simpl andb.
  - unfold bind at 1. unfold ret at 1.
    destruct (Py.eq_int hy (geo_y geo)).
    + unfold bind, ret. simpl. unfold monitor_name, monitor_fields.
      now rewrite Hx, Hy, Hn.
    + apply IH.
  - apply IH.
Qed.

Lemma match_monitors_run hms display :
  described hms ->
  forall i d w,
    Forall (fun k => (k < i)%nat) (map fst d) ->
    match_monitors (JArr hms) i display d w =
    (Returned (d ++ by_position i display hms), w).
Proof.
  intro Hhms.
  induction display as [| geo display IH]; intros i d w Hd; simpl.
  - now rewrite app_nil_r.
  - unfold bind at 1. unfold ret at 1.
    unfold bind at 1. rewrite (match_position_run i geo hms Hhms).
    destruct (name_at hms geo) as [name |].
    + rewrite setitem_append by assumption.
      rewrite IH.
      * now rewrite <- app_assoc.
      * rewrite map_app. apply Forall_app. split.
        -- eapply Forall_impl; [| exact Hd]. simpl. lia.
        -- constructor; [simpl; lia | constructor].
    + apply IH. eapply Forall_impl; [| exact Hd]. simpl. lia.
Qed.

Lemma assign_by_order_run n hms :
  described hms ->
  forall i d w,
    Forall (fun k => (k < i)%nat) (map fst d) ->
    assign_by_order n i hms d w =
    (Returned (d ++ combine (seq i (n - i)) (map monitor_name hms)), w).
Proof.
  induction 1 as [| hm hms Hhm _ IH]; intros i d w Hd.
  - simpl. destruct (seq i (n - i)); simpl; now rewrite app_nil_r.
  - destruct (described_fields hm Hhm)
      as [kvs [hx [hy [name [-> [Hx [Hy Hn]]]]]]].
    cbn [assign_by_order map]. unfold Py.subscript. rewrite Hn.
    assert (Hname : monitor_name (JObj kvs) = name)
      by (unfold monitor_name, monitor_fields; now rewrite Hx, Hy, Hn).
    rewrite Hname.
    destruct (Nat.ltb_spec i n) as [Hlt | Hge].
    + unfold bind at 1. unfold ret at 1.
      rewrite setitem_append by assumption.
      rewrite IH.
      * replace (n - i)%nat with (S (n - S i)) by lia.
        simpl. now rewrite <- app_assoc.
      * rewrite map_app. apply Forall_app. split.
        -- eapply Forall_impl; [| exact Hd]. simpl. lia.
        -- constructor; [simpl; lia | constructor].
    + rewrite IH.
      * replace (n - i)%nat with 0%nat by lia.
        replace (n - S i)%nat with 0%nat by lia. reflexivity.
      * eapply Forall_impl; [| exact Hd]. simpl. lia.
Qed.

Lemma gdk_to_hypr_run display connection hypr_monitors w :
  connection "j/monitors" = Some (Document (JArr hypr_monitors)) ->
  described hypr_monitors ->
  gdk_to_hypr display connection w =
  (Returned (assignment display hypr_monitors), after w [Sent "j/monitors"]).
Proof.
  intros Hc Hhms. unfold gdk_to_hypr, assignment.
  rewrite bind_send_command, Hc.
  unfold bind at 1. simpl json_loads. unfold ret at 1.
  unfold bind at 1.
  rewrite (match_monitors_run _ _ Hhms) by constructor.
  destruct (by_position 0 display hypr_monitors) as [| item placed];
    cbn [app].
  - unfold bind at 1. simpl Py.iter. unfold ret at 1.
    rewrite (assign_by_order_run _ _ Hhms) by constructor.
    rewrite Nat.sub_0_r. reflexivity.
  - reflexivity.
Qed.

(** X11. Which bars [create_bars] constructs on described monitors: when
    [j/monitors] answers a list whose monitors all have [x], [y] and [name]
    fields, the dictionary is built without raising after that one command,
    and [create_bars] goes on to construct its bars in order, whatever the
    constructor does. If at least one GDK monitor has a Hyprland monitor at
    its position, the dictionary is the position assignment: every such GDK
    monitor, in index order, with the name of the first Hyprland monitor at
    its position. If none has, it is the order assignment: GDK monitor [i]
    with the name of the [i]-th Hyprland monitor, as far as both lists
    go. *)
Theorem create_bars_assignment
    {Bar : Type} (StatusBar : nat -> json -> M Bar)
    display connection hypr_monitors w :
  connection "j/monitors" = Some (Document (JArr hypr_monitors)) ->
  described hypr_monitors ->
  let items :=
    match by_position 0 display hypr_monitors with
    | [] => by_order (length display) hypr_monitors
    | placed => placed
    end in
  gdk_to_hypr display connection w =
    (Returned items, after w [Sent "j/monitors"]) /\
  create_bars StatusBar display connection w =
    construct_bars StatusBar items [] (after w [Sent "j/monitors"]).
Proof.
  intros Hc Hhms items.
  pose proof (gdk_to_hypr_run display connection hypr_monitors w Hc Hhms)
    as Hrun.
  split; [exact Hrun |].
  unfold create_bars, bind. now rewrite Hrun.
Qed.

Lemma create_bars_assignment_witness :
  create_bars recorded_bar [mk_geo 0 0; mk_geo 1920 0]
    (monitors_connection [monitor_entry "eDP-1" 5 5;
                          monitor_entry "HDMI-A-1" 7 7;
                          monitor_entry "DP-3" 9 9])
    initial_world =
  (Returned [(0%nat, JStr "eDP-1"); (1%nat, JStr "HDMI-A-1")],
   mk_world [] [Sent "j/monitors"]).
Proof.
  destruct (create_bars_assignment recorded_bar [mk_geo 0 0; mk_geo 1920 0]
              (monitors_connection [monitor_entry "eDP-1" 5 5;
                                    monitor_entry "HDMI-A-1" 7 7;
                                    monitor_entry "DP-3" 9 9])
              [monitor_entry "eDP-1" 5 5; monitor_entry "HDMI-A-1" 7 7;
               monitor_entry "DP-3" 9 9] initial_world eq_refl)
    as [_ Hbars].
  - repeat constructor; discriminate.
  - rewrite Hbars. reflexivity.
Defined.

Lemma by_position_member hms display :
  forall i k name,
    In (k, name) (by_position i display hms) <->
    exists j geo,
      k = (i + j)%nat /\ nth_error display j = Some geo /\
      name_at hms geo = Some name.
Proof.
  induction display as [| g display IH]; intros i k name; simpl.
  - split; [easy |]. intros [j [geo [_ [H _]]]]. now destruct j.
  - split.
    + intro H.
      assert (Hrest : In (k, name) (by_position (S i) display hms) ->
                      exists j geo,
                        k = (i + j)%nat /\
                        nth_error (g :: display) j = Some geo /\
                        name_at hms geo = Some name).
      { intro Hin. apply IH in Hin as [j [geo [-> [Hnth Hname]]]].
        exists (S j), geo. repeat split; [lia | assumption | assumption]. }
      destruct (name_at hms g) as [v |] eqn:Hg; [| now apply Hrest].
      destruct H as [[= <- <-] | H]; [| now apply Hrest].
      exists 0%nat, g. repeat split; [lia | assumption].
    + intros [j [geo [-> [Hnth Hname]]]].
      destruct j as [| j]; simpl in Hnth.
      * injection Hnth as ->. rewrite Hname, Nat.add_0_r. now left.
      * assert (Hin : In ((i + S j)%nat, name)
                        (by_position (S i) display hms)).
        { apply IH. exists j, geo.
          repeat split; [lia | assumption | assumption]. }
        destruct (name_at hms g); [now right | assumption].
Qed.

(** X12. One positional match switches the fallback off: when
    [j/monitors] answers a list whose monitors all have [x], [y] and [name]
    fields and some GDK monitor has a Hyprland monitor at its position, the
    dictionary whose bars [create_bars] goes on to construct has GDK monitor
    [i] under the name [name] exactly when [name] is the name of the first
    Hyprland monitor at the position of [i]. A GDK monitor with no Hyprland
    monitor at its position is then given no bar; the assignment by order is
    not used for it. *)
Theorem create_bars_partial_match
    {Bar : Type} (StatusBar : nat -> json -> M Bar)
    display connection hypr_monitors w :
  connection "j/monitors" = Some (Document (JArr hypr_monitors)) ->
  described hypr_monitors ->
  (exists geo, In geo display /\ name_at hypr_monitors geo <> None) ->
  exists items,
    gdk_to_hypr display connection w =
      (Returned items, after w [Sent "j/monitors"]) /\
    create_bars StatusBar display connection w =
      construct_bars StatusBar items [] (after w [Sent "j/monitors"]) /\
    forall i name,
      In (i, name) items <->
      exists geo,
        nth_error display i = Some geo /\
        name_at hypr_monitors geo = Some name.
Proof.
  intros Hc Hhms [g [Hg Hmatch]].
  pose proof (gdk_to_hypr_run display connection hypr_monitors w Hc Hhms)
    as Hrun.
  assert (Hne : by_position 0 display hypr_monitors <> []).
  { apply In_nth_error in Hg as [j Hj].
    destruct (name_at hypr_monitors g) as [v |] eqn:Hv; [| easy].
    intro Hnil.
    assert (Hin : In (j, v) (by_position 0 display hypr_monitors))
      by (apply by_position_member; exists j, g; auto).
    now rewrite Hnil in Hin. }
  exists (by_position 0 display hypr_monitors).
  assert (Heq : assignment display hypr_monitors =
                by_position 0 display hypr_monitors).
  { unfold assignment.
    destruct (by_position 0 display hypr_monitors); [easy | reflexivity]. }
  rewrite Heq in Hrun.
  split; [exact Hrun |]. split.
  - unfold create_bars, bind. now rewrite Hrun.
  - intros i name. split.
    + intro Hin.
      apply by_position_member in Hin as [j [geo [-> [Hnth Hname]]]].
      now exists geo.
    + intros [geo [Hnth Hname]].
      apply by_position_member. now exists i, geo.
Qed.

Lemma create_bars_partial_match_witness :
  create_bars recorded_bar [mk_geo 0 0; mk_geo 1920 0]
    (monitors_connection [monitor_entry "eDP-1" 0 0;
                          monitor_entry "HDMI-A-1" 2560 0])
    initial_world =
  (Returned [(0%nat, JStr "eDP-1")], mk_world [] [Sent "j/monitors"]).
Proof.
  destruct (create_bars_partial_match recorded_bar
              [mk_geo 0 0; mk_geo 1920 0]
              (monitors_connection [monitor_entry "eDP-1" 0 0;
                                    monitor_entry "HDMI-A-1" 2560 0])
              [monitor_entry "eDP-1" 0 0; monitor_entry "HDMI-A-1" 2560 0]
              initial_world eq_refl)
    as [items [Hrun [Hbars _]]].
  - repeat constructor; discriminate.
  - exists (mk_geo 0 0). split; [now left | discriminate].
  - rewrite Hbars. injection Hrun as <-. reflexivity.
Defined.

(** * What the id-carrying handlers can raise *)

(** X13. The only way out of the five id-carrying handlers by an exception
    is [ValueError] on an id that [int] rejects: if the handler of a
    workspace-changed, monitor-focus, workspace-created, workspace-destroyed
    or workspace-moved event raises, then the event had two fields, its id
    field is not a decimal integer and the exception is [ValueError]. A
    failed or ill-shaped membership query never surfaces from them. *)
Theorem id_handlers_raise_only_on_unparsable_id {py : Interpreter}
    self connection s event w e :
  s <> urgent_signal ->
  fst (handler self connection s event w) = Raised e ->
  length (data event) = 2%nat /\
  Py.int_of_string (id_field s event) = None /\
  e = ValueError.
Proof.
  intros Hs.
  destruct s; simpl handler; simpl id_field; try contradiction.
  - unfold on_workspace.
    destruct (Nat.eqb_spec (length (data event)) 2) as [Hlen | _]; simpl;
      [| discriminate].
    destruct (Py.int_of_string (nth 0 (data event) "")) as [n |] eqn:Hid.
    + pose proof (on_workspace_run self connection event w n Hlen Hid) as H.
      unfold on_workspace in H. rewrite (arity_passes _ _ Hlen) in H.
      rewrite H. discriminate.
    + unfold bind. rewrite (int_str_fails _ _ Hid). simpl.
      intros [= <-]. auto.
  - unfold on_monitor.
    destruct (Nat.eqb_spec (length (data event)) 2) as [Hlen | _]; simpl;
      [| discriminate].
    unfold bind, Py.int_str.
    destruct (Py.int_of_string (nth 1 (data event) "")) as [n |]; simpl.
    + destruct (String.eqb _ _); discriminate.
    + intros [= <-]. auto.
  - unfold on_create_workspace.
    destruct (Nat.eqb_spec (length (data event)) 2) as [Hlen | _]; simpl;
      [| discriminate].
    destruct (Py.int_of_string (nth 0 (data event) "")) as [n |] eqn:Hid.
    + pose proof (on_create_workspace_run self connection event w n Hlen Hid)
        as H.
      unfold on_create_workspace in H. rewrite (arity_passes _ _ Hlen) in H.
      rewrite H. discriminate.
    + unfold bind. rewrite (int_str_fails _ _ Hid). simpl.
      intros [= <-]. auto.
  - unfold on_destroy_workspace.
    destruct (Nat.eqb_spec (length (data event)) 2) as [Hlen | _]; simpl;
      [| discriminate].
    unfold bind, Py.int_str, buttons_get.
    destruct (Py.int_of_string (nth 0 (data event) "")) as [n |]; simpl.
    + destruct (Registry.holds (buttons w) n); discriminate.
    + intros [= <-]. auto.
  - unfold on_move_workspace.
    destruct (Nat.eqb_spec (length (data event)) 2) as [Hlen | _]; simpl;
      [| discriminate].
    unfold bind, Py.int_str, buttons_get.
    destruct (Py.int_of_string (nth 0 (data event) "")) as [n |]; simpl.
    + destruct (String.eqb _ _); [discriminate |].
      destruct (Registry.holds (buttons w) n); discriminate.
    + intros [= <-]. auto.
Qed.

Lemma id_handlers_raise_only_on_unparsable_id_witness :
  Py.int_of_string (py := ascii_interpreter) "1.5" = None.
Proof.
  destruct (id_handlers_raise_only_on_unparsable_id (py := ascii_interpreter)
              (mk_self "DP-1" false) unreachable createworkspacev2
              (mk_event ["1.5"; "name"]) initial_world ValueError)
    as [_ [Hid _]].
  - discriminate.
  - reflexivity.
  - exact Hid.
Defined.
